(** * LM Studio chat window: conversation controller, bridge and relay

    A shallow embedding of the chat screen of the application
    ([src/src/App.tsx] and the first screen of [src/unnamed/part_000]) and of
    the privileged IPC handler ([src/unnamed/part_001]), followed by the
    properties of the specification that were checked against them.

    Conventions of the embedding.
    - A JavaScript string is the list of its UTF-16 code units.
    - A value that crosses the bridge is a [JsVal]: the JSON values plus
      [undefined].  TypeScript annotations are erased at run time, so a field
      declared [string] that is filled from a response holds a [JsVal].
    - React state is a record; a handler runs against the snapshot of the
      state of the render it was created in and posts updates to the store.
      An [async] handler is split at its [await]: the part before it returns
      the request it dispatches, the part after it takes the outcome of the
      call.  Handlers are run against an up-to-date snapshot.
    - Clock readings ([Date.now()], [new Date()]), the outcome of [fetch] and
      the success of [localStorage.setItem] are inputs of the environment. *)

From Stdlib Require Import List ZArith NArith QArith String Ascii Bool Lia.
From Stdlib Require Import DecimalString DecimalZ DecimalPos.
Import ListNotations.

Local Open Scope Z_scope.

(** ** JavaScript strings *)

Module JsString.

Definition jsstring := list N.

(** Decoding of the UTF-8 bytes of a Rocq string literal into UTF-16 code
    units, so that the literals of the source can be written as they are. *)
Definition utf16_of_code_point (cp : N) : list N :=
  if (cp <? 65536)%N then [cp]
  else let v := (cp - 65536)%N in
       [(55296 + N.shiftr v 10)%N; (56320 + N.land v 1023)%N].

Definition cont (b : N) : N := N.land b 63.

Fixpoint utf8_decode (bs : list N) : list N :=
  match bs with
  | [] => []
  | b0 :: r0 =>
    if (b0 <? 128)%N then b0 :: utf8_decode r0
    else match r0 with
    | [] => [65533%N]
    | b1 :: r1 =>
      if (b0 <? 224)%N then
        (N.shiftl (N.land b0 31) 6 + cont b1)%N :: utf8_decode r1
      else match r1 with
      | [] => [65533%N]
      | b2 :: r2 =>
        if (b0 <? 240)%N then
          (N.shiftl (N.land b0 15) 12 + N.shiftl (cont b1) 6 + cont b2)%N
            :: utf8_decode r2
        else match r2 with
        | [] => [65533%N]
        | b3 :: r3 =>
          utf16_of_code_point
            (N.shiftl (N.land b0 7) 18 + N.shiftl (cont b1) 12
             + N.shiftl (cont b2) 6 + cont b3)%N
            ++ utf8_decode r3
        end
      end
    end
  end.

Definition js (s : string) : jsstring :=
  utf8_decode (map N_of_ascii (list_ascii_of_string s)).

(** The line feed of the [\n] escapes of the source. *)
Definition nl : jsstring := [10%N].

Definition eqb (a b : jsstring) : bool :=
  if list_eq_dec N.eq_dec a b then true else false.

(** [WhiteSpace] and [LineTerminator] of ECMAScript: what
    [String.prototype.trim] removes. *)
Definition is_white_space (c : N) : bool :=
  ((c =? 9) || (c =? 10) || (c =? 11) || (c =? 12) || (c =? 13) || (c =? 32)
   || (c =? 160) || (c =? 5760) || ((8192 <=? c) && (c <=? 8202))
   || (c =? 8232) || (c =? 8233) || (c =? 8239) || (c =? 8287)
   || (c =? 12288) || (c =? 65279))%N.

Fixpoint trimStart (s : jsstring) : jsstring :=
  match s with
  | c :: r => if is_white_space c then trimStart r else s
  | [] => []
  end.

Definition trimEnd (s : jsstring) : jsstring := rev (trimStart (rev s)).

(** [s.trim()] *)
Definition trim (s : jsstring) : jsstring := trimEnd (trimStart s).

(** [s.endsWith(c)] for a one-unit search string. *)
Definition endsWith (s : jsstring) (c : N) : bool :=
  match rev s with
  | d :: _ => (d =? c)%N
  | [] => false
  end.

Definition slash : N := 47%N.

(** [n.toString()] for an integral number. *)
Definition toString (n : Z) : jsstring :=
  map N_of_ascii (list_ascii_of_string (NilZero.string_of_int (Z.to_int n))).

(** [t] occurs in [s] as a run of consecutive code units. *)
Fixpoint starts_with (t s : jsstring) : bool :=
  match t, s with
  | [], _ => true
  | _ :: _, [] => false
  | a :: t', b :: s' => (a =? b)%N && starts_with t' s'
  end.

Fixpoint includes (s t : jsstring) : bool :=
  starts_with t s ||
  match s with
  | [] => false
  | _ :: s' => includes s' t
  end.

Definition occurs_in (t s : jsstring) : Prop :=
  exists pre post, s = pre ++ t ++ post.

#[global] Arguments js : simpl never.
#[global] Arguments toString : simpl never.
#[global] Arguments trim : simpl never.
#[global] Arguments endsWith : simpl never.

End JsString.
Import JsString.

(** ** Run-time values *)

#[local] Set Warnings "-register-all".

Inductive JsVal :=
| JUndefined
| JNull
| JBool (b : bool)
| JNum (q : Q)
| JStr (s : jsstring)
| JArr (items : list JsVal)
| JObj (fields : list (jsstring * JsVal)).

(** What a [throw] carries: an [Error] instance with its message, or any
    other value. *)
Inductive Thrown :=
| ErrorObj (message : jsstring)
| NonError (v : JsVal).

(** An evaluation that returns or throws. *)
Inductive Completion (A : Type) :=
| Normal (a : A)
| Throw (e : Thrown).
Arguments Normal {A} a.
Arguments Throw {A} e.

Definition andThen {A B} (c : Completion A) (k : A -> Completion B) : Completion B :=
  match c with
  | Normal a => k a
  | Throw e => Throw e
  end.

Notation "x <?- c ;; k" := (andThen c (fun x => k))
  (at level 61, c at next level, right associativity).

Module Js.

(** [ToBoolean] *)
Definition truthy (v : JsVal) : bool :=
  match v with
  | JUndefined | JNull => false
  | JBool b => b
  | JNum q => negb (Qeq_bool q 0)
  | JStr s => match s with [] => false | _ => true end
  | JArr _ | JObj _ => true
  end.

Definition nullish (v : JsVal) : bool :=
  match v with
  | JUndefined | JNull => true
  | _ => false
  end.

(** [a || b] *)
Definition or_else (a b : JsVal) : JsVal := if truthy a then a else b.

(** [v === 'lit'] *)
Definition strict_eq_str (v : JsVal) (lit : jsstring) : bool :=
  match v with
  | JStr s => eqb s lit
  | _ => false
  end.

Inductive PropKey :=
| Named (k : jsstring)
| Index (i : nat).

Definition key_text (k : PropKey) : jsstring :=
  match k with
  | Named s => s
  | Index i => toString (Z.of_nat i)
  end.

Fixpoint lookup (k : jsstring) (fields : list (jsstring * JsVal)) : JsVal :=
  match fields with
  | [] => JUndefined
  | (k', v) :: r => if eqb k' k then v else lookup k r
  end.

(** The message V8 gives to the [TypeError] of a property read on
    [undefined] or [null]. *)
Definition cannot_read (base : JsVal) (k : PropKey) : Thrown :=
  ErrorObj (js "Cannot read properties of "
            ++ (match base with JNull => js "null" | _ => js "undefined" end)
            ++ js " (reading '" ++ key_text k ++ js "')").

(** [v.k] and [v[i]].  The names read by the program ([type], [data],
    [choices], [message], [content]) are on no prototype, so on anything but
    an object they are found only as own properties. *)
Definition get (v : JsVal) (k : PropKey) : Completion JsVal :=
  match v with
  | JUndefined | JNull => Throw (cannot_read v k)
  | JObj fields => Normal (lookup (key_text k) fields)
  | JArr items =>
    match k with
    | Index i => Normal (nth i items JUndefined)
    | Named s =>
      if eqb s (js "length") then Normal (JNum (inject_Z (Z.of_nat (List.length items))))
      else Normal JUndefined
    end
  | JStr s =>
    match k with
    | Index i => Normal (match nth_error s i with
                         | Some c => JStr [c]
                         | None => JUndefined
                         end)
    | Named n =>
      if eqb n (js "length") then Normal (JNum (inject_Z (Z.of_nat (List.length s))))
      else Normal JUndefined
    end
  | JBool _ | JNum _ => Normal JUndefined
  end.

(** [v?.k] *)
Definition get_opt (v : JsVal) (k : PropKey) : Completion JsVal :=
  if nullish v then Normal JUndefined else get v k.

End Js.


(** ** Data shared by the screens

    [Message], [LMStudioConfig] and [DEFAULT_CONFIG] are declared with the
    same text at the head of [src/src/App.tsx] and of [src/unnamed/part_000];
    the argument of [callLMStudioAPI] is declared in [src/electron/preload.ts]. *)

Inductive Role := user | assistant.

Definition role_text (r : Role) : jsstring :=
  match r with
  | user => js "user"
  | assistant => js "assistant"
  end.

Record Message := {
  id : jsstring;
  role : Role;
  content : JsVal;
  timestamp : Z
}.

Record LMStudioConfig := {
  baseUrl : jsstring;
  model : jsstring
}.

Definition DEFAULT_CONFIG : LMStudioConfig :=
  {| baseUrl := js "http://localhost:1234"; model := js "local-model" |}.

(** The descriptor handed to [window.electronAPI.callLMStudioAPI]. *)
Record Request := {
  endpoint : jsstring;
  method : jsstring;
  body : option JsVal
}.

(** How the promise returned by [callLMStudioAPI] settles. *)
Inductive Outcome :=
| Resolved (response : JsVal)
| Rejected (error : Thrown).

Definition awaited (o : Outcome) : Completion JsVal :=
  match o with
  | Resolved response => Normal response
  | Rejected error => Throw error
  end.

(** [error instanceof Error ? error.message : '不明なエラー'] *)
Definition error_text (error : Thrown) : jsstring :=
  match error with
  | ErrorObj message => message
  | NonError _ => js "不明なエラー"
  end.

(** [{ role: msg.role, content: msg.content }] *)
Definition role_content (msg : Message) : JsVal :=
  JObj [(js "role", JStr (role_text (role msg))); (js "content", content msg)].

(** The object literal passed as [body] by [sendMessage]. *)
Definition chat_body (model_name : jsstring) (conversationHistory : list JsVal) : JsVal :=
  JObj [(js "model", JStr model_name);
        (js "messages", JArr conversationHistory);
        (js "temperature", JNum 0.7);
        (js "max_tokens", JNum 1000);
        (js "stream", JBool false)].

(** [{ type: "json", data }]: what the relay returns ([part_001], line 52). *)
Definition json_result (data : JsVal) : JsVal :=
  JObj [(js "type", JStr (js "json")); (js "data", data)].

(** The [messages] array of the body of a descriptor. *)
Definition sent_messages (d : Request) : list JsVal :=
  match body d with
  | Some (JObj fields) =>
    match Js.lookup (js "messages") fields with
    | JArr items => items
    | _ => []
    end
  | _ => []
  end.

(** The statements of the [try] block of [sendMessage] that follow the
    [await], up to the value of the [content] field of the reply.  The two
    files have the same text here. *)
Definition reply_content (response : JsVal) : Completion JsVal :=
  ty <?- Js.get response (Js.Named (js "type")) ;;
  if Js.strict_eq_str ty (js "json") then
    data <?- Js.get response (Js.Named (js "data")) ;;
    if Js.truthy data then
      choices <?- Js.get data (Js.Named (js "choices")) ;;
      first <?- Js.get choices (Js.Index 0) ;;
      message <?- Js.get_opt first (Js.Named (js "message")) ;;
      text <?- Js.get_opt message (Js.Named (js "content")) ;;
      Normal (Js.or_else text (JStr (js "エラー: レスポンスが空です")))
    else Throw (ErrorObj (js "無効なレスポンス形式"))
  else Throw (ErrorObj (js "無効なレスポンス形式")).

(** The condition [response.type === 'json' && response.data] of
    [testConnection], with the [throw] of its [else] branch. *)
Definition checked_data (response : JsVal) : Completion JsVal :=
  ty <?- Js.get response (Js.Named (js "type")) ;;
  if Js.strict_eq_str ty (js "json") then
    data <?- Js.get response (Js.Named (js "data")) ;;
    if Js.truthy data then Normal data
    else Throw (ErrorObj (js "無効なレスポンス"))
  else Throw (ErrorObj (js "無効なレスポンス")).

(** ** Event handlers as state transformers *)

Module React.

Definition Handler (St A : Type) : Type := St -> A * St.

Definition ret {St A} (a : A) : Handler St A := fun st => (a, st).

Definition bind {St A B} (c : Handler St A) (k : A -> Handler St B) : Handler St B :=
  fun st => let (a, st') := c st in k a st'.

(** [setX(f)]: post the update [f] to the store. *)
Definition update {St} (f : St -> St) : Handler St unit := fun st => (tt, f st).

End React.

Notation "c1 ;;; c2" := (React.bind c1 (fun _ => c2))
  (at level 62, right associativity).

(** A piece of a template literal: its text, or an interpolated value that
    is not known to be a string. *)
Inductive Piece :=
| Lit (s : jsstring)
| Interp (v : JsVal).

(** ** The screen of [src/src/App.tsx] *)

Module AppBasic.

(** The [useState] cells of [App], and the [alert] boxes shown so far. *)
Record State := {
  messages : list Message;
  input : jsstring;
  isLoading : bool;
  config : LMStudioConfig;
  showConfig : bool;
  alerts : list (list Piece)
}.

Definition initial : State :=
  {| messages := []; input := []; isLoading := false;
     config := DEFAULT_CONFIG; showConfig := false; alerts := [] |}.

Definition setMessages (f : list Message -> list Message) : React.Handler State unit :=
  React.update (fun st =>
    {| messages := f (messages st); input := input st; isLoading := isLoading st;
       config := config st; showConfig := showConfig st; alerts := alerts st |}).

Definition setInput (v : jsstring) : React.Handler State unit :=
  React.update (fun st =>
    {| messages := messages st; input := v; isLoading := isLoading st;
       config := config st; showConfig := showConfig st; alerts := alerts st |}).

Definition setIsLoading (b : bool) : React.Handler State unit :=
  React.update (fun st =>
    {| messages := messages st; input := input st; isLoading := b;
       config := config st; showConfig := showConfig st; alerts := alerts st |}).

Definition setConfig (c : LMStudioConfig) : React.Handler State unit :=
  React.update (fun st =>
    {| messages := messages st; input := input st; isLoading := isLoading st;
       config := c; showConfig := showConfig st; alerts := alerts st |}).

Definition alert (text : list Piece) : React.Handler State unit :=
  React.update (fun st =>
    {| messages := messages st; input := input st; isLoading := isLoading st;
       config := config st; showConfig := showConfig st;
       alerts := alerts st ++ [text] |}).

(** A call that is waiting for the relay: the descriptor that was sent and
    the render snapshot the rest of the handler closes over. *)
Record InFlight := {
  request : Request;
  closure : State
}.

(** [sendMessage], lines 37-68: up to the [await].  [now] is the reading of
    [Date.now()], [stamp] that of [new Date()]. *)
Definition sendMessage (now stamp : Z) : React.Handler State (option InFlight) :=
  fun snap =>
  if negb (Js.truthy (JStr (trim (input snap)))) || isLoading snap then (None, snap)
  else
    let userMessage :=
      {| id := toString now; role := user;
         content := JStr (trim (input snap)); timestamp := stamp |} in
    (setMessages (fun prev => prev ++ [userMessage]) ;;;
     setInput [] ;;;
     setIsLoading true ;;;
     let conversationHistory := map role_content (messages snap ++ [userMessage]) in
     React.ret (Some
       {| request :=
            {| endpoint := baseUrl (config snap) ++ js "/v1/chat/completions";
               method := js "POST";
               body := Some (chat_body (model (config snap)) conversationHistory) |};
          closure := snap |})) snap.

(** [sendMessage], lines 70-93: from the settlement of the call on.  The
    clock readings are those of the message that is appended. *)
Definition sendMessage_settled (now stamp : Z) (fl : InFlight) (o : Outcome)
  : React.Handler State unit :=
  (match (response <?- awaited o ;; reply_content response) with
   | Normal text =>
     let assistantMessage :=
       {| id := toString (now + 1); role := assistant;
          content := text; timestamp := stamp |} in
     setMessages (fun prev => prev ++ [assistantMessage])
   | Throw error =>
     let errorMessage :=
       {| id := toString (now + 1); role := assistant;
          content := JStr (js "エラーが発生しました: " ++ error_text error);
          timestamp := stamp |} in
     setMessages (fun prev => prev ++ [errorMessage])
   end) ;;;
  setIsLoading false.

(** [clearChat] *)
Definition clearChat : React.Handler State unit :=
  setMessages (fun _ => []).

(** [testConnection], lines 107-113: up to the [await]. *)
Definition testConnection : React.Handler State InFlight :=
  fun snap =>
  (setIsLoading true ;;;
   React.ret
     {| request :=
          {| endpoint := baseUrl (config snap) ++ js "/v1/models";
             method := js "GET";
             body := None |};
        closure := snap |}) snap.

(** [response.data.data?.length || 0] *)
Definition model_count (data : JsVal) : Completion JsVal :=
  inner <?- Js.get data (Js.Named (js "data")) ;;
  len <?- Js.get_opt inner (Js.Named (js "length")) ;;
  Normal (Js.or_else len (JNum 0)).

(** [testConnection], lines 115-124. *)
Definition testConnection_settled (fl : InFlight) (o : Outcome)
  : React.Handler State unit :=
  (match (response <?- awaited o ;;
          data <?- checked_data response ;;
          model_count data) with
   | Normal n =>
     alert [Lit (js "接続成功!" ++ nl ++ js "利用可能なモデル数: "); Interp n]
   | Throw error =>
     alert [Lit (js "接続エラー: " ++ error_text error)]
   end) ;;;
  setIsLoading false.

(** A click on the button [接続テスト], which carries
    [onClick={testConnection}] and [disabled={isLoading}] (lines 140-146): a
    disabled button fires no click handler. *)
Definition testButton_click : React.Handler State (option InFlight) :=
  fun snap =>
  if isLoading snap then (None, snap)
  else let (fl, st) := testConnection snap in (Some fl, st).

(** The [onChange] handlers of the text area and of the settings panel. *)
Definition input_onChange (v : jsstring) : React.Handler State unit := setInput v.

Definition baseUrl_onChange (v : jsstring) : React.Handler State unit :=
  fun snap => setConfig {| baseUrl := v; model := model (config snap) |} snap.

Definition model_onChange (v : jsstring) : React.Handler State unit :=
  fun snap => setConfig {| baseUrl := baseUrl (config snap); model := v |} snap.

(** One [sendMessage] run alone, the call being answered by [relay]: [None]
    when the handler returned at its guard. *)
Definition send (relay : Request -> Outcome) (now stamp now' stamp' : Z) (st : State)
  : option State :=
  match sendMessage now stamp st with
  | (Some fl, st1) =>
    Some (snd (sendMessage_settled now' stamp' fl (relay (request fl)) st1))
  | (None, _) => None
  end.

End AppBasic.

(** ** The screen of [src/unnamed/part_000], lines 1-367

    The two screens that follow it in that file repeat these handlers; the
    last one words the entries of [testConnection] differently. *)

Module AppPersist.

Definition CONFIG_STORAGE_KEY : jsstring := js "lm_studio_config".

(** The [useState] cells of [App]; the item of [localStorage] under
    [CONFIG_STORAGE_KEY], held as the object whose JSON text it is; the
    [alert] boxes shown so far. *)
Record State := {
  messages : list Message;
  input : jsstring;
  isLoading : bool;
  config : LMStudioConfig;
  showConfig : bool;
  tempConfig : LMStudioConfig;
  storage : option LMStudioConfig;
  alerts : list jsstring
}.

Definition setMessages (f : list Message -> list Message) : React.Handler State unit :=
  React.update (fun st =>
    {| messages := f (messages st); input := input st; isLoading := isLoading st;
       config := config st; showConfig := showConfig st;
       tempConfig := tempConfig st; storage := storage st; alerts := alerts st |}).

Definition setInput (v : jsstring) : React.Handler State unit :=
  React.update (fun st =>
    {| messages := messages st; input := v; isLoading := isLoading st;
       config := config st; showConfig := showConfig st;
       tempConfig := tempConfig st; storage := storage st; alerts := alerts st |}).

Definition setIsLoading (b : bool) : React.Handler State unit :=
  React.update (fun st =>
    {| messages := messages st; input := input st; isLoading := b;
       config := config st; showConfig := showConfig st;
       tempConfig := tempConfig st; storage := storage st; alerts := alerts st |}).

Definition setConfig (c : LMStudioConfig) : React.Handler State unit :=
  React.update (fun st =>
    {| messages := messages st; input := input st; isLoading := isLoading st;
       config := c; showConfig := showConfig st;
       tempConfig := tempConfig st; storage := storage st; alerts := alerts st |}).

Definition setShowConfig (b : bool) : React.Handler State unit :=
  React.update (fun st =>
    {| messages := messages st; input := input st; isLoading := isLoading st;
       config := config st; showConfig := b;
       tempConfig := tempConfig st; storage := storage st; alerts := alerts st |}).

Definition setTempConfig (c : LMStudioConfig) : React.Handler State unit :=
  React.update (fun st =>
    {| messages := messages st; input := input st; isLoading := isLoading st;
       config := config st; showConfig := showConfig st;
       tempConfig := c; storage := storage st; alerts := alerts st |}).

Definition setStorage (item : option LMStudioConfig) : React.Handler State unit :=
  React.update (fun st =>
    {| messages := messages st; input := input st; isLoading := isLoading st;
       config := config st; showConfig := showConfig st;
       tempConfig := tempConfig st; storage := item; alerts := alerts st |}).

Definition alert (text : jsstring) : React.Handler State unit :=
  React.update (fun st =>
    {| messages := messages st; input := input st; isLoading := isLoading st;
       config := config st; showConfig := showConfig st;
       tempConfig := tempConfig st; storage := storage st;
       alerts := alerts st ++ [text] |}).

(** [s || d] on strings. *)
Definition or_default (s d : jsstring) : jsstring :=
  match s with
  | [] => d
  | _ :: _ => s
  end.

(** The initialiser of the [config] cell (lines 27-41) on the items the
    screen itself writes: [saved] is the stored item when it parses to an
    object with string fields (a missing field reads as the empty string),
    [None] when there is no item or it does not parse.  An item that holds a
    truthy value other than a string in a field is kept as it is by the
    source and has no [LMStudioConfig]; [Startup.load] below reads every
    item. *)
Definition initial_config (saved : option LMStudioConfig) : LMStudioConfig :=
  match saved with
  | Some parsed =>
    {| baseUrl := or_default (baseUrl parsed) (baseUrl DEFAULT_CONFIG);
       model := or_default (model parsed) (model DEFAULT_CONFIG) |}
  | None => DEFAULT_CONFIG
  end.

Definition initial (saved : option LMStudioConfig) : State :=
  {| messages := []; input := []; isLoading := false;
     config := initial_config saved; showConfig := false;
     tempConfig := initial_config saved; storage := saved; alerts := [] |}.

(** [saveConfig], lines 56-78.  [setItem_ok] tells whether
    [localStorage.setItem] returns rather than throws. *)
Definition saveConfig (setItem_ok : bool) (now stamp : Z) : React.Handler State unit :=
  fun snap =>
  let finalConfig :=
    {| baseUrl := or_default (trim (baseUrl (tempConfig snap))) (baseUrl DEFAULT_CONFIG);
       model := or_default (trim (model (tempConfig snap))) (model DEFAULT_CONFIG) |} in
  (setConfig finalConfig ;;;
   if setItem_ok then
     setStorage (Some finalConfig) ;;;
     setShowConfig false ;;;
     let successMessage :=
       {| id := toString now; role := assistant;
          content := JStr (js "設定を保存しました" ++ nl
                           ++ js "・API URL: " ++ baseUrl finalConfig ++ nl
                           ++ js "・モデル名: " ++ model finalConfig);
          timestamp := stamp |} in
     setMessages (fun prev => prev ++ [successMessage])
   else
     alert (js "設定の保存に失敗しました")) snap.

(** [resetConfig], lines 81-93; [localStorage.removeItem] is taken to
    return. *)
Definition resetConfig (now stamp : Z) : React.Handler State unit :=
  setTempConfig DEFAULT_CONFIG ;;;
  setConfig DEFAULT_CONFIG ;;;
  setStorage None ;;;
  let resetMessage :=
    {| id := toString now; role := assistant;
       content := JStr (js "設定をデフォルトに戻しました" ++ nl
                        ++ js "・API URL: " ++ baseUrl DEFAULT_CONFIG ++ nl
                        ++ js "・モデル名: " ++ model DEFAULT_CONFIG);
       timestamp := stamp |} in
  setMessages (fun prev => prev ++ [resetMessage]).

(** [toggleConfigPanel], lines 95-100. *)
Definition toggleConfigPanel : React.Handler State unit :=
  fun snap =>
  ((if negb (showConfig snap) then setTempConfig (config snap) else React.ret tt) ;;;
   setShowConfig (negb (showConfig snap))) snap.

Record InFlight := {
  request : Request;
  closure : State
}.

(** [apiUrl], lines 117-119. *)
Definition apiUrl (c : LMStudioConfig) : jsstring :=
  if endsWith (baseUrl c) slash
  then baseUrl c ++ js "v1/chat/completions"
  else baseUrl c ++ js "/v1/chat/completions".

(** [modelsUrl], lines 183-185. *)
Definition modelsUrl (c : LMStudioConfig) : jsstring :=
  if endsWith (baseUrl c) slash
  then baseUrl c ++ js "v1/models"
  else baseUrl c ++ js "/v1/models".

(** [sendMessage], lines 102-137: up to the [await]. *)
Definition sendMessage (now stamp : Z) : React.Handler State (option InFlight) :=
  fun snap =>
  if negb (Js.truthy (JStr (trim (input snap)))) || isLoading snap then (None, snap)
  else
    let userMessage :=
      {| id := toString now; role := user;
         content := JStr (trim (input snap)); timestamp := stamp |} in
    (setMessages (fun prev => prev ++ [userMessage]) ;;;
     setInput [] ;;;
     setIsLoading true ;;;
     let conversationHistory := map role_content (messages snap ++ [userMessage]) in
     React.ret (Some
       {| request :=
            {| endpoint := apiUrl (config snap);
               method := js "POST";
               body := Some (chat_body (model (config snap)) conversationHistory) |};
          closure := snap |})) snap.

(** [sendMessage], lines 139-166: from the settlement of the call on.  The
    [setTimeout] that gives the focus back to the text area has no effect on
    the state. *)
Definition sendMessage_settled (now stamp : Z) (fl : InFlight) (o : Outcome)
  : React.Handler State unit :=
  (match (response <?- awaited o ;; reply_content response) with
   | Normal text =>
     let assistantMessage :=
       {| id := toString (now + 1); role := assistant;
          content := text; timestamp := stamp |} in
     setMessages (fun prev => prev ++ [assistantMessage])
   | Throw error =>
     let errorMessage :=
       {| id := toString (now + 1); role := assistant;
          content := JStr (js "エラーが発生しました: " ++ error_text error ++ nl ++ nl
                           ++ js "設定を確認してください：" ++ nl
                           ++ js "・API URL: " ++ baseUrl (config (closure fl)) ++ nl
                           ++ js "・モデル名: " ++ model (config (closure fl)));
          timestamp := stamp |} in
     setMessages (fun prev => prev ++ [errorMessage])
   end) ;;;
  setIsLoading false.

(** [clearChat] *)
Definition clearChat : React.Handler State unit :=
  setMessages (fun _ => []).

(** [testConnection], lines 180-190: up to the [await]. *)
Definition testConnection : React.Handler State InFlight :=
  fun snap =>
  (setIsLoading true ;;;
   React.ret
     {| request :=
          {| endpoint := modelsUrl (config snap); method := js "GET"; body := None |};
        closure := snap |}) snap.

(** [testConnection], lines 192-214. *)
Definition testConnection_settled (now stamp : Z) (fl : InFlight) (o : Outcome)
  : React.Handler State unit :=
  (match (response <?- awaited o ;; checked_data response) with
   | Normal _ =>
     let connectionMessage :=
       {| id := toString now; role := assistant;
          content := JStr (js "接続成功！" ++ nl ++ nl
                           ++ js "API URL: " ++ baseUrl (config (closure fl)));
          timestamp := stamp |} in
     setMessages (fun prev => prev ++ [connectionMessage])
   | Throw error =>
     let errorMsg := error_text error in
     let connectionErrorMessage :=
       {| id := toString now; role := assistant;
          content := JStr (js "接続エラー" ++ nl ++ nl
                           ++ js "API URL: " ++ baseUrl (config (closure fl)) ++ nl
                           ++ js "エラー内容: " ++ errorMsg ++ nl ++ nl
                           ++ js "設定を確認してください。");
          timestamp := stamp |} in
     setMessages (fun prev => prev ++ [connectionErrorMessage])
   end) ;;;
  setIsLoading false.

(** A click on the button [接続テスト], which carries
    [onClick={testConnection}] and [disabled={isLoading}] (lines 232-238). *)
Definition testButton_click : React.Handler State (option InFlight) :=
  fun snap =>
  if isLoading snap then (None, snap)
  else let (fl, st) := testConnection snap in (Some fl, st).

(** The [onChange] handlers of the text area and of the settings panel (this
    screen has a field for the URL only), and the button [キャンセル]. *)
Definition input_onChange (v : jsstring) : React.Handler State unit := setInput v.

Definition baseUrl_onChange (v : jsstring) : React.Handler State unit :=
  fun snap => setTempConfig {| baseUrl := v; model := model (tempConfig snap) |} snap.

Definition cancel_click : React.Handler State unit := setShowConfig false.

(** One [sendMessage] run alone, the call being answered by [relay]: [None]
    when the handler returned at its guard. *)
Definition send (relay : Request -> Outcome) (now stamp now' stamp' : Z) (st : State)
  : option State :=
  match sendMessage now stamp st with
  | (Some fl, st1) =>
    Some (snd (sendMessage_settled now' stamp' fl (relay (request fl)) st1))
  | (None, _) => None
  end.

(** One [testConnection] run alone. *)
Definition test (relay : Request -> Outcome) (now stamp : Z) (st : State) : State :=
  let (fl, st1) := testConnection st in
  snd (testConnection_settled now stamp fl (relay (request fl)) st1).

End AppPersist.

(** ** The relay: the handler of [call-lm-studio-api] in [src/unnamed/part_001] *)

Module Relay.

(** The second argument of [fetch]; [f_body] is the value whose JSON text is
    sent. *)
Record FetchInit := {
  f_method : jsstring;
  f_headers : list (jsstring * jsstring);
  f_body : option JsVal
}.

(** What the handler reads of a [Response]: its status, and what
    [response.json()] settles to. *)
Record Response := {
  status : Z;
  json : Completion JsVal
}.

(** [response.ok] *)
Definition ok (r : Response) : bool := (200 <=? status r) && (status r <=? 299).

Section Handler.

(** [fetch]: the promise is rejected (no connection, bad URL) or fulfilled
    with a response. *)
Variable fetch : jsstring -> FetchInit -> Completion Response.

(** The options object of lines 41-47. *)
Definition fetch_init (d : Request) : FetchInit :=
  {| f_method := method d;
     f_headers := [(js "Content-Type", js "application/json")];
     f_body := match body d with
               | Some b => if Js.truthy b then Some b else None
               | None => None
               end |}.

(** Lines 38-57.  The [catch] clause logs the error and throws it again. *)
Definition call_lm_studio_api (d : Request) : Completion JsVal :=
  let attempt :=
    response <?- fetch (endpoint d) (fetch_init d) ;;
    if negb (ok response) then
      Throw (ErrorObj (js "HTTP error! status: " ++ toString (status response)))
    else
      data <?- json response ;;
      Normal (json_result data) in
  match attempt with
  | Normal result => Normal result
  | Throw error => Throw error
  end.

End Handler.

End Relay.

(** ** The bridge: [callLMStudioAPI] of [src/electron/preload.ts] *)

Module Bridge.

Section Invoke.

(** The handler registered in the main process for the channel. *)
Variable handler : Request -> Completion JsVal.

(** What Electron prints of an error of the main process when it builds the
    rejection for the renderer. *)
Variable describe : Thrown -> jsstring.

(** [ipcRenderer.invoke('call-lm-studio-api', params)]: the result comes
    back as it is; an error comes back as a new [Error] that quotes it. *)
Definition callLMStudioAPI (params : Request) : Outcome :=
  match handler params with
  | Normal result => Resolved result
  | Throw error =>
    Rejected (ErrorObj (js "Error invoking remote method 'call-lm-studio-api': "
                        ++ describe error))
  end.

End Invoke.

End Bridge.

(** ** Sample states and relays *)

(** The entry [sendMessage] builds from the text [text] of the input at the
    clock readings [now] and [stamp]; the statements below name it. *)
Definition user_entry (now stamp : Z) (text : jsstring) : Message :=
  {| id := toString now; role := user; content := JStr (trim text); timestamp := stamp |}.

Module Samples.

Definition basic (text : jsstring) (busy : bool) (c : LMStudioConfig)
  (transcript : list Message) : AppBasic.State :=
  {| AppBasic.messages := transcript; AppBasic.input := text;
     AppBasic.isLoading := busy; AppBasic.config := c;
     AppBasic.showConfig := false; AppBasic.alerts := [] |}.

Definition persist (text : jsstring) (busy : bool) (c staged : LMStudioConfig)
  (transcript : list Message) : AppPersist.State :=
  {| AppPersist.messages := transcript; AppPersist.input := text;
     AppPersist.isLoading := busy; AppPersist.config := c;
     AppPersist.showConfig := false; AppPersist.tempConfig := staged;
     AppPersist.storage := None; AppPersist.alerts := [] |}.

Definition greeting : Message :=
  {| id := js "1700000000000"; role := assistant;
     content := JStr (js "こんにちは"); timestamp := 1700000000000 |}.

(** A relay that answers every call with the text [hi]. *)
Definition relay_hi : Request -> Outcome := fun _ =>
  Resolved (json_result
    (JObj [(js "choices",
            JArr [JObj [(js "message", JObj [(js "content", JStr (js "hi"))])]])])).

(** A relay whose call fails with status 500. *)
Definition relay_500 : Request -> Outcome := fun _ =>
  Rejected (ErrorObj (js "HTTP error! status: 500")).


(** A [fetch] that finds nobody listening. *)
Definition fetch_refused : jsstring -> Relay.FetchInit -> Completion Relay.Response :=
  fun _ _ => Throw (ErrorObj (js "fetch failed")).

(** A [fetch] answered with the given status and a body that parses to
    [data]. *)
Definition fetch_status (code : Z) (data : JsVal)
  : jsstring -> Relay.FetchInit -> Completion Relay.Response :=
  fun _ _ => Normal {| Relay.status := code; Relay.json := Normal data |}.

(** A server that answers every request with status 200 and a reply whose
    text is [hi], seen from the renderer through the relay and the bridge. *)
Definition server_hi : Request -> Outcome :=
  Bridge.callLMStudioAPI
    (Relay.call_lm_studio_api
       (fetch_status 200
          (JObj [(js "choices",
                  JArr [JObj [(js "message",
                               JObj [(js "content", JStr (js "hi"))])]])])))
    (fun error => js "Error: " ++ error_text error).

(** A server that answers every request with status 500, seen likewise. *)
Definition server_500 : Request -> Outcome :=
  Bridge.callLMStudioAPI
    (Relay.call_lm_studio_api (fetch_status 500 JNull))
    (fun error => js "Error: " ++ error_text error).

Definition models_request : Request :=
  {| endpoint := js "http://localhost:1234/v1/models"; method := js "GET"; body := None |}.

End Samples.

(** ** Start-up: the initialiser of the [config] cell, on any stored item *)

Module Startup.

(** What [localStorage.getItem(CONFIG_STORAGE_KEY)] and [JSON.parse] make of
    the stored item ([part_000], lines 29-31). *)
Inductive Stored :=
| Absent
| Malformed (error : Thrown)
| Parsed (parsed : JsVal).

(** The object the initialiser returns; its fields are whatever the stored
    text held. *)
Record Loaded := {
  loaded_baseUrl : JsVal;
  loaded_model : JsVal
}.

Definition defaults : Loaded :=
  {| loaded_baseUrl := JStr (baseUrl DEFAULT_CONFIG);
     loaded_model := JStr (model DEFAULT_CONFIG) |}.

(** Lines 27-41.  [Absent] is [null] or the empty text, for which the [if]
    is not entered; a [throw] in the [try] block is logged and the defaults
    are returned. *)
Definition load (item : Stored) : Loaded :=
  match item with
  | Absent => defaults
  | Malformed _ => defaults
  | Parsed parsed =>
    match (b <?- Js.get parsed (Js.Named (js "baseUrl")) ;;
           m <?- Js.get parsed (Js.Named (js "model")) ;;
           Normal {| loaded_baseUrl := Js.or_else b (JStr (baseUrl DEFAULT_CONFIG));
                     loaded_model := Js.or_else m (JStr (model DEFAULT_CONFIG)) |}) with
    | Normal c => c
    | Throw _ => defaults
    end
  end.

(** [JSON.parse(JSON.stringify(c))] for a configuration [c]. *)
Definition written (c : LMStudioConfig) : JsVal :=
  JObj [(js "baseUrl", JStr (baseUrl c)); (js "model", JStr (model c))].

(** The stored item as the next start reads it. *)
Definition item_of (storage : option LMStudioConfig) : Stored :=
  match storage with
  | Some c => Parsed (written c)
  | None => Absent
  end.

Definition loaded_of (c : LMStudioConfig) : Loaded :=
  {| loaded_baseUrl := JStr (baseUrl c); loaded_model := JStr (model c) |}.

(** The loaded object as a configuration of the declared type, when both
    its fields are strings. *)
Definition as_config (l : Loaded) : option LMStudioConfig :=
  match loaded_baseUrl l, loaded_model l with
  | JStr b, JStr m => Some {| baseUrl := b; model := m |}
  | _, _ => None
  end.

End Startup.

(** ** The controls of the screens *)

(** The fields of a keyboard event that [handleKeyPress] reads. *)
Record KeyboardEvent := {
  key : jsstring;
  shiftKey : bool
}.

Module BasicUi.

(** [handleKeyPress], [App.tsx] lines 96-101: whether [preventDefault] was
    called, and the call that was dispatched. *)
Definition handleKeyPress (e : KeyboardEvent) (now stamp : Z)
  : React.Handler AppBasic.State (bool * option AppBasic.InFlight) :=
  fun snap =>
  if eqb (key e) (js "Enter") && negb (shiftKey e)
  then let (call, st) := AppBasic.sendMessage now stamp snap in ((true, call), st)
  else ((false, None), snap).

(** The [disabled] attribute of the button [送信], line 240. *)
Definition sendButton_disabled (st : AppBasic.State) : bool :=
  negb (Js.truthy (JStr (trim (AppBasic.input st)))) || AppBasic.isLoading st.

(** A click on that button, lines 238-244. *)
Definition sendButton_click (now stamp : Z)
  : React.Handler AppBasic.State (option AppBasic.InFlight) :=
  fun snap =>
  if sendButton_disabled snap then (None, snap)
  else AppBasic.sendMessage now stamp snap.

End BasicUi.

(** ** A session of the screen with saved settings

    The events a user and the relay can cause on the screen of [part_000],
    lines 217-362, each guarded as the markup guards it: the text area is
    [disabled] while [isLoading], the buttons [送信] and [接続テスト] carry
    their [disabled] attributes, and the settings panel is rendered only
    while [showConfig]. *)

Module Session.

(** [handleKeyPress], lines 169-174. *)
Definition handleKeyPress (e : KeyboardEvent) (now stamp : Z)
  : React.Handler AppPersist.State (bool * option AppPersist.InFlight) :=
  fun snap =>
  if eqb (key e) (js "Enter") && negb (shiftKey e)
  then let (call, st) := AppPersist.sendMessage now stamp snap in ((true, call), st)
  else ((false, None), snap).

(** The [disabled] attribute of the button [送信], line 356. *)
Definition sendButton_disabled (st : AppPersist.State) : bool :=
  negb (Js.truthy (JStr (trim (AppPersist.input st)))) || AppPersist.isLoading st.

Definition sendButton_click (now stamp : Z)
  : React.Handler AppPersist.State (option AppPersist.InFlight) :=
  fun snap =>
  if sendButton_disabled snap then (None, snap)
  else AppPersist.sendMessage now stamp snap.

(** A call that has been dispatched and has not settled yet, with the rest
    of the handler that waits for it. *)
Inductive Call :=
| SendCall (fl : AppPersist.InFlight)
| TestCall (fl : AppPersist.InFlight).

Record System := {
  ui : AppPersist.State;
  pending : list Call
}.

Inductive Event :=
| Change (v : jsstring)
| KeyPress (e : KeyboardEvent) (now stamp : Z)
| ClickSend (now stamp : Z)
| ClickTest
| ClickClear
| ClickSettings
| ChangeBaseUrl (v : jsstring)
| ClickSave (setItem_ok : bool) (now stamp : Z)
| ClickReset (now stamp : Z)
| ClickCancel
| Settled (i : nat) (o : Outcome) (now stamp : Z).

Definition with_ui (sys : System) (st : AppPersist.State) : System :=
  {| ui := st; pending := pending sys |}.

Definition dispatched (sys : System) (call : option Call) (st : AppPersist.State) : System :=
  {| ui := st;
     pending := match call with
                | Some c => pending sys ++ [c]
                | None => pending sys
                end |}.

(** The part of a handler that runs when its call settles. *)
Definition settle (c : Call) (o : Outcome) (now stamp : Z)
  : React.Handler AppPersist.State unit :=
  match c with
  | SendCall fl => AppPersist.sendMessage_settled now stamp fl o
  | TestCall fl => AppPersist.testConnection_settled now stamp fl o
  end.

Definition without (i : nat) (calls : list Call) : list Call :=
  firstn i calls ++ skipn (S i) calls.

(** [Settled i o] is the settlement of the [i]-th pending call with the
    outcome [o]. *)
Definition step (sys : System) (e : Event) : System :=
  let st := ui sys in
  match e with
  | Change v =>
    if AppPersist.isLoading st then sys
    else with_ui sys (snd (AppPersist.input_onChange v st))
  | KeyPress k now stamp =>
    if AppPersist.isLoading st then sys
    else let '((_, call), st') := handleKeyPress k now stamp st in
         dispatched sys (option_map SendCall call) st'
  | ClickSend now stamp =>
    let (call, st') := sendButton_click now stamp st in
    dispatched sys (option_map SendCall call) st'
  | ClickTest =>
    let (call, st') := AppPersist.testButton_click st in
    dispatched sys (option_map TestCall call) st'
  | ClickClear => with_ui sys (snd (AppPersist.clearChat st))
  | ClickSettings => with_ui sys (snd (AppPersist.toggleConfigPanel st))
  | ChangeBaseUrl v =>
    if AppPersist.showConfig st
    then with_ui sys (snd (AppPersist.baseUrl_onChange v st))
    else sys
  | ClickSave setItem_ok now stamp =>
    if AppPersist.showConfig st
    then with_ui sys (snd (AppPersist.saveConfig setItem_ok now stamp st))
    else sys
  | ClickReset now stamp =>
    if AppPersist.showConfig st
    then with_ui sys (snd (AppPersist.resetConfig now stamp st))
    else sys
  | ClickCancel =>
    if AppPersist.showConfig st
    then with_ui sys (snd (AppPersist.cancel_click st))
    else sys
  | Settled i o now stamp =>
    match nth_error (pending sys) i with
    | Some c => {| ui := snd (settle c o now stamp st); pending := without i (pending sys) |}
    | None => sys
    end
  end.

Definition run (events : list Event) (sys : System) : System :=
  fold_left step events sys.

(** The screen as it is mounted, the stored item being [saved]. *)
Definition start (saved : option LMStudioConfig) : System :=
  {| ui := AppPersist.initial saved; pending := [] |}.

Definition is_clear (e : Event) : bool :=
  match e with
  | ClickClear => true
  | _ => false
  end.

End Session.

(** * Properties *)

(** ** Strings *)

Section StringFacts.

Lemma eqb_eq (a b : jsstring) : eqb a b = true <-> a = b.
Proof.
  unfold eqb. destruct (list_eq_dec N.eq_dec a b); split; congruence.
Qed.

Lemma occurs_in_middle (a t b : jsstring) : occurs_in t (a ++ t ++ b).
Proof. exists a, b. reflexivity. Qed.

Lemma occurs_in_extend (a t s b : jsstring) :
  occurs_in t s -> occurs_in t (a ++ s ++ b).
Proof.
  intros (pre & post & ->). exists (a ++ pre), (post ++ b).
  now rewrite <- !app_assoc.
Qed.

Lemma starts_with_prefix (t s : jsstring) :
  starts_with t s = true <-> exists post, s = t ++ post.
Proof.
  revert s. induction t as [|a t IH]; intros s; simpl.
  - split; [intros _; now exists s | reflexivity].
  - destruct s as [|b s]; simpl.
    + split; [discriminate | intros (post & H); discriminate].
    + rewrite andb_true_iff, N.eqb_eq, IH. split.
      * intros (-> & post & ->). now exists post.
      * intros (post & H). injection H as -> ->. split; [reflexivity | now exists post].
Qed.

Lemma includes_occurs_in (s t : jsstring) :
  includes s t = true <-> occurs_in t s.
Proof.
  induction s as [|c s IH].
  - simpl. rewrite orb_false_r, starts_with_prefix. split.
    + intros (post & H). now exists [], post.
    + intros (pre & post & H). destruct pre; [now exists post | discriminate].
  - cbn [includes]. rewrite orb_true_iff, starts_with_prefix, IH. split.
    + intros [(post & ->) | (pre & post & ->)].
      * now exists [], post.
      * now exists (c :: pre), post.
    + intros (pre & post & H). destruct pre as [|d pre].
      * left. now exists post.
      * right. injection H as -> ->. now exists pre, post.
Qed.

Lemma endsWith_snoc (s : jsstring) (d c : N) :
  endsWith (s ++ [d]) c = (d =? c)%N.
Proof. unfold endsWith. now rewrite rev_app_distr. Qed.

Lemma toString_inj (a b : Z) : toString a = toString b -> a = b.
Proof.
  unfold toString. intros H.
  assert (E : NilZero.string_of_int (Z.to_int a) = NilZero.string_of_int (Z.to_int b)).
  { rewrite <- (string_of_list_ascii_of_string (NilZero.string_of_int (Z.to_int a))).
    rewrite <- (string_of_list_ascii_of_string (NilZero.string_of_int (Z.to_int b))).
    f_equal.
    assert (M : forall l, map ascii_of_N (map N_of_ascii l) = l).
    { induction l as [|x l IHl]; simpl; [reflexivity|].
      now rewrite ascii_N_embedding, IHl. }
    rewrite <- (M (list_ascii_of_string _)), H. apply M. }
  assert (N : forall z, Z.to_int z <> Decimal.Pos Decimal.Nil
                        /\ Z.to_int z <> Decimal.Neg Decimal.Nil).
  { intros [|q|q]; simpl; split; try discriminate;
      intros C; injection C as C; exact (DecimalPos.Unsigned.to_uint_nonnil q C). }
  apply (f_equal NilZero.int_of_string) in E.
  rewrite !NilZero.isi in E by apply N.
  assert (E' : Z.to_int a = Z.to_int b) by congruence.
  apply (f_equal Z.of_int) in E'.
  now rewrite !DecimalZ.of_to in E'.
Qed.

End StringFacts.

(** ** The guard of [sendMessage] *)

Section Guard.

Variables now stamp : Z.

Lemma basic_sendMessage_refused (st : AppBasic.State) :
  trim (AppBasic.input st) = [] \/ AppBasic.isLoading st = true ->
  AppBasic.sendMessage now stamp st = (None, st).
Proof.
  unfold AppBasic.sendMessage. intros [E | E]; rewrite E; simpl.
  - reflexivity.
  - now rewrite orb_true_r.
Qed.

Lemma basic_sendMessage_accepted (st : AppBasic.State) :
  trim (AppBasic.input st) <> [] -> AppBasic.isLoading st = false ->
  AppBasic.sendMessage now stamp st =
  (Some {| AppBasic.request :=
             {| endpoint := baseUrl (AppBasic.config st) ++ js "/v1/chat/completions";
                method := js "POST";
                body := Some (chat_body (model (AppBasic.config st))
                                (map role_content
                                   (AppBasic.messages st
                                    ++ [user_entry now stamp (AppBasic.input st)]))) |};
           AppBasic.closure := st |},
   {| AppBasic.messages :=
        AppBasic.messages st ++ [user_entry now stamp (AppBasic.input st)];
      AppBasic.input := [];
      AppBasic.isLoading := true;
      AppBasic.config := AppBasic.config st;
      AppBasic.showConfig := AppBasic.showConfig st;
      AppBasic.alerts := AppBasic.alerts st |}).
Proof.
  intros Htext Hidle. unfold AppBasic.sendMessage, user_entry. rewrite Hidle.
  destruct (trim (AppBasic.input st)) as [|c r]; [contradiction|]. reflexivity.
Qed.

Lemma persist_sendMessage_refused (st : AppPersist.State) :
  trim (AppPersist.input st) = [] \/ AppPersist.isLoading st = true ->
  AppPersist.sendMessage now stamp st = (None, st).
Proof.
  unfold AppPersist.sendMessage. intros [E | E]; rewrite E; simpl.
  - reflexivity.
  - now rewrite orb_true_r.
Qed.

Lemma persist_sendMessage_accepted (st : AppPersist.State) :
  trim (AppPersist.input st) <> [] -> AppPersist.isLoading st = false ->
  AppPersist.sendMessage now stamp st =
  (Some {| AppPersist.request :=
             {| endpoint := AppPersist.apiUrl (AppPersist.config st);
                method := js "POST";
                body := Some (chat_body (model (AppPersist.config st))
                                (map role_content
                                   (AppPersist.messages st
                                    ++ [user_entry now stamp (AppPersist.input st)]))) |};
           AppPersist.closure := st |},
   {| AppPersist.messages :=
        AppPersist.messages st ++ [user_entry now stamp (AppPersist.input st)];
      AppPersist.input := [];
      AppPersist.isLoading := true;
      AppPersist.config := AppPersist.config st;
      AppPersist.showConfig := AppPersist.showConfig st;
      AppPersist.tempConfig := AppPersist.tempConfig st;
      AppPersist.storage := AppPersist.storage st;
      AppPersist.alerts := AppPersist.alerts st |}).
Proof.
  intros Htext Hidle. unfold AppPersist.sendMessage, user_entry. rewrite Hidle.
  destruct (trim (AppPersist.input st)) as [|c r]; [contradiction|]. reflexivity.
Qed.

(** A call that was dispatched passed the guard. *)
Lemma basic_dispatch_passed_guard (st st' : AppBasic.State) (fl : AppBasic.InFlight) :
  AppBasic.sendMessage now stamp st = (Some fl, st') ->
  trim (AppBasic.input st) <> [] /\ AppBasic.isLoading st = false.
Proof.
  intros H. split.
  - intros E. rewrite basic_sendMessage_refused in H by now left. discriminate.
  - destruct (AppBasic.isLoading st) eqn:E; [|reflexivity].
    rewrite basic_sendMessage_refused in H by now right. discriminate.
Qed.

Lemma persist_dispatch_passed_guard (st st' : AppPersist.State) (fl : AppPersist.InFlight) :
  AppPersist.sendMessage now stamp st = (Some fl, st') ->
  trim (AppPersist.input st) <> [] /\ AppPersist.isLoading st = false.
Proof.
  intros H. split.
  - intros E. rewrite persist_sendMessage_refused in H by now left. discriminate.
  - destruct (AppPersist.isLoading st) eqn:E; [|reflexivity].
    rewrite persist_sendMessage_refused in H by now right. discriminate.
Qed.

End Guard.

(** ** Operations attempted while busy *)

(** C1: with [isLoading] set, every way the screens have of invoking
    [sendMessage] or [testConnection] is a no-op that leaves the whole state,
    transcript included, as it was and dispatches no descriptor.
    [sendMessage] returns at its guard, whether it is called directly, by a
    click on the send button or by a key press in the text area.
    [testConnection] is called from one place only, the [onClick] of the
    connection-test button, and that button is disabled while [isLoading]
    (App.tsx 140-146; part_000 232-238), so the attempt is dropped.  In a
    session of the screen with saved settings each of the three attempts
    leaves the system, pending calls included, unchanged. *)
Theorem busy_send_refused_test_button_disabled
  (now stamp : Z) (e : KeyboardEvent)
  (a : AppBasic.State) (p : AppPersist.State) (calls : list Session.Call) :
  AppBasic.isLoading a = true ->
  AppPersist.isLoading p = true ->
  AppBasic.sendMessage now stamp a = (None, a)
  /\ AppBasic.testButton_click a = (None, a)
  /\ AppPersist.sendMessage now stamp p = (None, p)
  /\ AppPersist.testButton_click p = (None, p)
  /\ BasicUi.sendButton_click now stamp a = (None, a)
  /\ (exists prevented, BasicUi.handleKeyPress e now stamp a = ((prevented, None), a))
  /\ Session.sendButton_click now stamp p = (None, p)
  /\ (exists prevented, Session.handleKeyPress e now stamp p = ((prevented, None), p))
  /\ (let sys := {| Session.ui := p; Session.pending := calls |} in
      Session.step sys (Session.KeyPress e now stamp) = sys
      /\ Session.step sys (Session.ClickSend now stamp) = sys
      /\ Session.step sys Session.ClickTest = sys).
Proof.
  intros Ha Hp.
  assert (Sa : AppBasic.sendMessage now stamp a = (None, a))
    by (apply basic_sendMessage_refused; now right).
  assert (Sp : AppPersist.sendMessage now stamp p = (None, p))
    by (apply persist_sendMessage_refused; now right).
  assert (Ta : AppBasic.testButton_click a = (None, a))
    by (unfold AppBasic.testButton_click; now rewrite Ha).
  assert (Tp : AppPersist.testButton_click p = (None, p))
    by (unfold AppPersist.testButton_click; now rewrite Hp).
  assert (Ba : BasicUi.sendButton_click now stamp a = (None, a)).
  { unfold BasicUi.sendButton_click, BasicUi.sendButton_disabled.
    now rewrite Ha, orb_true_r. }
  assert (Bp : Session.sendButton_click now stamp p = (None, p)).
  { unfold Session.sendButton_click, Session.sendButton_disabled.
    now rewrite Hp, orb_true_r. }
  split; [exact Sa|]. split; [exact Ta|]. split; [exact Sp|]. split; [exact Tp|].
  split; [exact Ba|]. split; [|split; [exact Bp|split]].
  - unfold BasicUi.handleKeyPress. rewrite Sa.
    destruct (eqb (key e) (js "Enter") && negb (shiftKey e)); eexists; reflexivity.
  - unfold Session.handleKeyPress. rewrite Sp.
    destruct (eqb (key e) (js "Enter") && negb (shiftKey e)); eexists; reflexivity.
  - cbn [Session.step Session.ui]. rewrite Hp, Bp, Tp. repeat split.
Qed.

Lemma busy_send_refused_test_button_disabled_witness :
  let a := Samples.basic (js "hello") true DEFAULT_CONFIG [Samples.greeting] in
  let p := Samples.persist (js "hello") true DEFAULT_CONFIG DEFAULT_CONFIG [Samples.greeting] in
  let e := {| key := js "Enter"; shiftKey := false |} in
  (AppBasic.isLoading a = true /\ AppPersist.isLoading p = true)
  /\ AppBasic.sendMessage 5 5 a = (None, a)
  /\ AppBasic.testButton_click a = (None, a)
  /\ AppPersist.sendMessage 5 5 p = (None, p)
  /\ AppPersist.testButton_click p = (None, p)
  /\ BasicUi.sendButton_click 5 5 a = (None, a)
  /\ (exists prevented, BasicUi.handleKeyPress e 5 5 a = ((prevented, None), a))
  /\ Session.sendButton_click 5 5 p = (None, p)
  /\ (exists prevented, Session.handleKeyPress e 5 5 p = ((prevented, None), p))
  /\ (let sys := {| Session.ui := p; Session.pending := [] |} in
      Session.step sys (Session.KeyPress e 5 5) = sys
      /\ Session.step sys (Session.ClickSend 5 5) = sys
      /\ Session.step sys Session.ClickTest = sys).
Proof.
  split; [split; reflexivity|].
  apply busy_send_refused_test_button_disabled; reflexivity.
Defined.

(** ** One exchange *)

Section Settlement.

Variables now stamp : Z.

(** Whatever the outcome, the part of [sendMessage] after the [await]
    appends one entry with the role [assistant] and clears [isLoading]. *)
Lemma basic_settled_appends_one (fl : AppBasic.InFlight) (o : Outcome) (st : AppBasic.State) :
  exists reply,
    snd (AppBasic.sendMessage_settled now stamp fl o st) =
    {| AppBasic.messages := AppBasic.messages st ++ [reply];
       AppBasic.input := AppBasic.input st;
       AppBasic.isLoading := false;
       AppBasic.config := AppBasic.config st;
       AppBasic.showConfig := AppBasic.showConfig st;
       AppBasic.alerts := AppBasic.alerts st |}
    /\ role reply = assistant
    /\ id reply = toString (now + 1)
    /\ timestamp reply = stamp.
Proof.
  unfold AppBasic.sendMessage_settled.
  destruct (response <?- awaited o ;; reply_content response) as [text | error];
    eexists; (split; [reflexivity | repeat split]).
Qed.

Lemma persist_settled_appends_one (fl : AppPersist.InFlight) (o : Outcome) (st : AppPersist.State) :
  exists reply,
    snd (AppPersist.sendMessage_settled now stamp fl o st) =
    {| AppPersist.messages := AppPersist.messages st ++ [reply];
       AppPersist.input := AppPersist.input st;
       AppPersist.isLoading := false;
       AppPersist.config := AppPersist.config st;
       AppPersist.showConfig := AppPersist.showConfig st;
       AppPersist.tempConfig := AppPersist.tempConfig st;
       AppPersist.storage := AppPersist.storage st;
       AppPersist.alerts := AppPersist.alerts st |}
    /\ role reply = assistant
    /\ id reply = toString (now + 1)
    /\ timestamp reply = stamp.
Proof.
  unfold AppPersist.sendMessage_settled.
  destruct (response <?- awaited o ;; reply_content response) as [text | error];
    eexists; (split; [reflexivity | repeat split]).
Qed.

(** The entry appended when the [try] block ends by a [throw]. *)
Lemma basic_settled_error (fl : AppBasic.InFlight) (o : Outcome) (st : AppBasic.State)
  (error : Thrown) :
  (response <?- awaited o ;; reply_content response) = Throw error ->
  AppBasic.messages (snd (AppBasic.sendMessage_settled now stamp fl o st)) =
  AppBasic.messages st ++
  [{| id := toString (now + 1); role := assistant;
      content := JStr (js "エラーが発生しました: " ++ error_text error);
      timestamp := stamp |}].
Proof. unfold AppBasic.sendMessage_settled. now intros ->. Qed.

Lemma persist_settled_error (fl : AppPersist.InFlight) (o : Outcome) (st : AppPersist.State)
  (error : Thrown) :
  (response <?- awaited o ;; reply_content response) = Throw error ->
  AppPersist.messages (snd (AppPersist.sendMessage_settled now stamp fl o st)) =
  AppPersist.messages st ++
  [{| id := toString (now + 1); role := assistant;
      content :=
        JStr (js "エラーが発生しました: " ++ error_text error ++ nl ++ nl
              ++ js "設定を確認してください：" ++ nl
              ++ js "・API URL: " ++ baseUrl (AppPersist.config (AppPersist.closure fl)) ++ nl
              ++ js "・モデル名: " ++ model (AppPersist.config (AppPersist.closure fl)));
      timestamp := stamp |}].
Proof. unfold AppPersist.sendMessage_settled. now intros ->. Qed.

End Settlement.

(** C2: with a text that is not blank once trimmed and [isLoading] unset,
    [sendMessage] has appended one user entry carrying the trimmed text when
    it dispatches the request, and one assistant entry once the call has
    settled, whatever the relay answered; run from an empty transcript this
    leaves the user entry alone at dispatch and the user entry followed by
    the assistant entry at the end.  This holds for both screens. *)
Theorem send_appends_user_then_assistant
  (relay : Request -> Outcome) (now stamp now' stamp' : Z)
  (a : AppBasic.State) (p : AppPersist.State) :
  trim (AppBasic.input a) <> [] -> AppBasic.isLoading a = false ->
  trim (AppPersist.input p) <> [] -> AppPersist.isLoading p = false ->
  (exists fl a1 a2 reply,
      AppBasic.sendMessage now stamp a = (Some fl, a1)
      /\ AppBasic.messages a1 =
         AppBasic.messages a ++ [user_entry now stamp (AppBasic.input a)]
      /\ AppBasic.send relay now stamp now' stamp' a = Some a2
      /\ AppBasic.messages a2 =
         AppBasic.messages a ++ [user_entry now stamp (AppBasic.input a); reply]
      /\ role reply = assistant
      /\ (AppBasic.messages a = [] ->
          AppBasic.messages a1 = [user_entry now stamp (AppBasic.input a)]
          /\ AppBasic.messages a2 = [user_entry now stamp (AppBasic.input a); reply]))
  /\
  (exists fl p1 p2 reply,
      AppPersist.sendMessage now stamp p = (Some fl, p1)
      /\ AppPersist.messages p1 =
         AppPersist.messages p ++ [user_entry now stamp (AppPersist.input p)]
      /\ AppPersist.send relay now stamp now' stamp' p = Some p2
      /\ AppPersist.messages p2 =
         AppPersist.messages p ++ [user_entry now stamp (AppPersist.input p); reply]
      /\ role reply = assistant
      /\ (AppPersist.messages p = [] ->
          AppPersist.messages p1 = [user_entry now stamp (AppPersist.input p)]
          /\ AppPersist.messages p2 = [user_entry now stamp (AppPersist.input p); reply])).
Proof.
  intros Ta Ia Tp Ip. split.
  - pose proof (basic_sendMessage_accepted now stamp a Ta Ia) as E.
    unfold AppBasic.send. rewrite E.
    match goal with |- context [AppBasic.sendMessage_settled _ _ ?fl ?o ?st] =>
      destruct (basic_settled_appends_one now' stamp' fl o st) as (reply & S & R & _)
    end.
    do 4 eexists. split; [reflexivity|]. split; [reflexivity|].
    split; [reflexivity|]. rewrite S. cbn [AppBasic.messages].
    rewrite <- app_assoc. split; [reflexivity|]. split; [exact R|].
    intros ->. split; reflexivity.
  - pose proof (persist_sendMessage_accepted now stamp p Tp Ip) as E.
    unfold AppPersist.send. rewrite E.
    match goal with |- context [AppPersist.sendMessage_settled _ _ ?fl ?o ?st] =>
      destruct (persist_settled_appends_one now' stamp' fl o st) as (reply & S & R & _)
    end.
    do 4 eexists. split; [reflexivity|]. split; [reflexivity|].
    split; [reflexivity|]. rewrite S. cbn [AppPersist.messages].
    rewrite <- app_assoc. split; [reflexivity|]. split; [exact R|].
    intros ->. split; reflexivity.
Qed.

Lemma send_appends_user_then_assistant_witness :
  let a := Samples.basic (js " hello ") false DEFAULT_CONFIG [] in
  let p := Samples.persist (js " hello ") false DEFAULT_CONFIG DEFAULT_CONFIG [] in
  (trim (AppBasic.input a) <> [] /\ AppBasic.isLoading a = false
   /\ trim (AppPersist.input p) <> [] /\ AppPersist.isLoading p = false)
  /\ (exists fl a1 a2 reply,
      AppBasic.sendMessage 1 1 a = (Some fl, a1)
      /\ AppBasic.messages a1 = AppBasic.messages a ++ [user_entry 1 1 (AppBasic.input a)]
      /\ AppBasic.send Samples.relay_hi 1 1 2 2 a = Some a2
      /\ AppBasic.messages a2 =
         AppBasic.messages a ++ [user_entry 1 1 (AppBasic.input a); reply]
      /\ role reply = assistant
      /\ (AppBasic.messages a = [] ->
          AppBasic.messages a1 = [user_entry 1 1 (AppBasic.input a)]
          /\ AppBasic.messages a2 = [user_entry 1 1 (AppBasic.input a); reply]))
  /\ (exists fl p1 p2 reply,
      AppPersist.sendMessage 1 1 p = (Some fl, p1)
      /\ AppPersist.messages p1 =
         AppPersist.messages p ++ [user_entry 1 1 (AppPersist.input p)]
      /\ AppPersist.send Samples.relay_hi 1 1 2 2 p = Some p2
      /\ AppPersist.messages p2 =
         AppPersist.messages p ++ [user_entry 1 1 (AppPersist.input p); reply]
      /\ role reply = assistant
      /\ (AppPersist.messages p = [] ->
          AppPersist.messages p1 = [user_entry 1 1 (AppPersist.input p)]
          /\ AppPersist.messages p2 = [user_entry 1 1 (AppPersist.input p); reply])).
Proof.
  split.
  - repeat split; try reflexivity; vm_compute; discriminate.
  - apply (send_appends_user_then_assistant Samples.relay_hi 1 1 2 2);
      try reflexivity; vm_compute; discriminate.
Defined.

(** The exchange of P6: the text [hello] sent from an empty transcript to a
    relay that answers [hi]. *)
Example send_hello_gets_hi :
  option_map AppPersist.messages
    (AppPersist.send Samples.relay_hi 1 1 2 2
       (Samples.persist (js "hello") false DEFAULT_CONFIG DEFAULT_CONFIG []))
  = Some [ {| id := js "1"; role := user; content := JStr (js "hello"); timestamp := 1 |};
           {| id := js "3"; role := assistant; content := JStr (js "hi"); timestamp := 2 |} ].
Proof. vm_compute. reflexivity. Qed.

(** The same exchange with the relay and the bridge in between. *)
Example send_hello_through_the_relay :
  option_map AppPersist.messages
    (AppPersist.send Samples.server_hi 1 1 2 2
       (Samples.persist (js "hello") false DEFAULT_CONFIG DEFAULT_CONFIG []))
  = Some [ {| id := js "1"; role := user; content := JStr (js "hello"); timestamp := 1 |};
           {| id := js "3"; role := assistant; content := JStr (js "hi"); timestamp := 2 |} ].
Proof. vm_compute. reflexivity. Qed.

(** ** A call that fails *)

Ltac occurs_here pre post :=
  exists pre, post; rewrite <- ?app_assoc, ?app_nil_r; reflexivity.

(** C7, as the code has it: when the call is rejected, [sendMessage] leaves
    the user entry followed by one assistant entry and clears [isLoading].
    In both screens the text of that entry starts with the error marker and
    carries the message of the error; in the screen with saved settings it
    also carries the base URL and the model name of the configuration. *)
Theorem send_rejected_leaves_error_entry
  (error : Thrown) (now stamp now' stamp' : Z)
  (a : AppBasic.State) (p : AppPersist.State) :
  trim (AppBasic.input a) <> [] -> AppBasic.isLoading a = false ->
  trim (AppPersist.input p) <> [] -> AppPersist.isLoading p = false ->
  (exists a2,
      AppBasic.send (fun _ => Rejected error) now stamp now' stamp' a = Some a2
      /\ AppBasic.messages a2 =
         AppBasic.messages a ++
         [user_entry now stamp (AppBasic.input a);
          {| id := toString (now' + 1); role := assistant;
             content := JStr (js "エラーが発生しました: " ++ error_text error);
             timestamp := stamp' |}]
      /\ AppBasic.isLoading a2 = false)
  /\
  (exists p2 text,
      AppPersist.send (fun _ => Rejected error) now stamp now' stamp' p = Some p2
      /\ AppPersist.messages p2 =
         AppPersist.messages p ++
         [user_entry now stamp (AppPersist.input p);
          {| id := toString (now' + 1); role := assistant;
             content := JStr text; timestamp := stamp' |}]
      /\ (exists rest, text = js "エラーが発生しました: " ++ error_text error ++ rest)
      /\ occurs_in (baseUrl (AppPersist.config p)) text
      /\ occurs_in (model (AppPersist.config p)) text
      /\ AppPersist.isLoading p2 = false).
Proof.
  intros Ta Ia Tp Ip. split.
  - unfold AppBasic.send. rewrite (basic_sendMessage_accepted now stamp a Ta Ia).
    eexists. split; [reflexivity|]. split.
    + rewrite (basic_settled_error now' stamp' _ _ _ error) by reflexivity.
      cbn [AppBasic.messages]. now rewrite <- app_assoc.
    + match goal with |- context [AppBasic.sendMessage_settled _ _ ?fl ?o ?st] =>
        destruct (basic_settled_appends_one now' stamp' fl o st) as (reply & S & _)
      end.
      now rewrite S.
  - unfold AppPersist.send. rewrite (persist_sendMessage_accepted now stamp p Tp Ip).
    do 2 eexists. split; [reflexivity|]. split.
    + rewrite (persist_settled_error now' stamp' _ _ _ error) by reflexivity.
      cbn [AppPersist.messages AppPersist.closure]. rewrite <- app_assoc. reflexivity.
    + split; [eexists; reflexivity|]. split; [|split].
      * occurs_here
          (js "エラーが発生しました: " ++ error_text error ++ nl ++ nl
           ++ js "設定を確認してください：" ++ nl ++ js "・API URL: ")
          (nl ++ js "・モデル名: " ++ model (AppPersist.config p)).
      * occurs_here
          (js "エラーが発生しました: " ++ error_text error ++ nl ++ nl
           ++ js "設定を確認してください：" ++ nl ++ js "・API URL: "
           ++ baseUrl (AppPersist.config p) ++ nl ++ js "・モデル名: ")
          (@nil N).
      * match goal with |- context [AppPersist.sendMessage_settled _ _ ?fl ?o ?st] =>
          destruct (persist_settled_appends_one now' stamp' fl o st) as (reply & S & _)
        end.
        now rewrite S.
Qed.

Lemma send_rejected_leaves_error_entry_witness :
  let a := Samples.basic (js "hello") false DEFAULT_CONFIG [] in
  let p := Samples.persist (js "hello") false DEFAULT_CONFIG DEFAULT_CONFIG [] in
  let error := ErrorObj (js "HTTP error! status: 500") in
  (trim (AppBasic.input a) <> [] /\ AppBasic.isLoading a = false
   /\ trim (AppPersist.input p) <> [] /\ AppPersist.isLoading p = false)
  /\ (exists a2,
      AppBasic.send (fun _ => Rejected error) 1 1 2 2 a = Some a2
      /\ AppBasic.messages a2 =
         AppBasic.messages a ++
         [user_entry 1 1 (AppBasic.input a);
          {| id := toString (2 + 1); role := assistant;
             content := JStr (js "エラーが発生しました: " ++ error_text error);
             timestamp := 2 |}]
      /\ AppBasic.isLoading a2 = false)
  /\ (exists p2 text,
      AppPersist.send (fun _ => Rejected error) 1 1 2 2 p = Some p2
      /\ AppPersist.messages p2 =
         AppPersist.messages p ++
         [user_entry 1 1 (AppPersist.input p);
          {| id := toString (2 + 1); role := assistant;
             content := JStr text; timestamp := 2 |}]
      /\ (exists rest, text = js "エラーが発生しました: " ++ error_text error ++ rest)
      /\ occurs_in (baseUrl (AppPersist.config p)) text
      /\ occurs_in (model (AppPersist.config p)) text
      /\ AppPersist.isLoading p2 = false).
Proof.
  split.
  - repeat split; try reflexivity; vm_compute; discriminate.
  - apply (send_rejected_leaves_error_entry (ErrorObj (js "HTTP error! status: 500")) 1 1 2 2);
      try reflexivity; vm_compute; discriminate.
Defined.

(** C7, as stated, fails in [src/src/App.tsx]: after a call rejected with
    status 500 the text of the assistant entry is the marker and the message
    of the error, and the base URL of the configuration is nowhere in it. *)
Lemma basic_error_entry_lacks_base_url :
  let a := Samples.basic (js "hello") false DEFAULT_CONFIG [] in
  exists a2 text,
    AppBasic.send Samples.relay_500 1 1 2 2 a = Some a2
    /\ AppBasic.messages a2 =
       [user_entry 1 1 (js "hello");
        {| id := js "3"; role := assistant; content := JStr text; timestamp := 2 |}]
    /\ text = js "エラーが発生しました: HTTP error! status: 500"
    /\ ~ occurs_in (baseUrl (AppBasic.config a)) text.
Proof.
  do 2 eexists. split; [vm_compute; reflexivity|].
  split; [vm_compute; reflexivity|]. split; [vm_compute; reflexivity|].
  rewrite <- includes_occurs_in. vm_compute. discriminate.
Qed.

(** The exchange of P7 with the relay and the bridge in between: the server
    answers with status 500. *)
Example send_hello_status_500 :
  option_map (fun st => (map content (AppPersist.messages st), AppPersist.isLoading st))
    (AppPersist.send Samples.server_500 1 1 2 2
       (Samples.persist (js "hello") false DEFAULT_CONFIG DEFAULT_CONFIG []))
  = Some ([JStr (js "hello");
           JStr (js "エラーが発生しました: Error invoking remote method 'call-lm-studio-api': Error: HTTP error! status: 500"
                 ++ nl ++ nl ++ js "設定を確認してください：" ++ nl
                 ++ js "・API URL: http://localhost:1234" ++ nl
                 ++ js "・モデル名: local-model")],
          false).
Proof. vm_compute. reflexivity. Qed.

(** ** A call that resolves with a falsy value *)

Section Falsy.

Lemma type_of_json_result (data : JsVal) :
  Js.get (json_result data) (Js.Named (js "type")) = Normal (JStr (js "json")).
Proof. reflexivity. Qed.

Lemma data_of_json_result (data : JsVal) :
  Js.get (json_result data) (Js.Named (js "data")) = Normal data.
Proof. reflexivity. Qed.

Lemma reply_content_falsy (data : JsVal) :
  Js.truthy data = false ->
  reply_content (json_result data) = Throw (ErrorObj (js "無効なレスポンス形式")).
Proof.
  intros F. unfold reply_content.
  rewrite type_of_json_result, data_of_json_result. cbn [andThen].
  replace (Js.strict_eq_str (JStr (js "json")) (js "json")) with true by reflexivity.
  now rewrite F.
Qed.

Lemma checked_data_falsy (data : JsVal) :
  Js.truthy data = false ->
  checked_data (json_result data) = Throw (ErrorObj (js "無効なレスポンス")).
Proof.
  intros F. unfold checked_data.
  rewrite type_of_json_result, data_of_json_result. cbn [andThen].
  replace (Js.strict_eq_str (JStr (js "json")) (js "json")) with true by reflexivity.
  now rewrite F.
Qed.



End Falsy.




(** ** The descriptor of [sendMessage] *)



(** ** What the model is told of the conversation *)

Lemma basic_history (now stamp : Z) (a a' : AppBasic.State) (fa : AppBasic.InFlight) :
  AppBasic.sendMessage now stamp a = (Some fa, a') ->
  sent_messages (AppBasic.request fa) =
  map role_content (AppBasic.messages a)
  ++ [role_content (user_entry now stamp (AppBasic.input a))].
Proof.
  intros H. destruct (basic_dispatch_passed_guard _ _ _ _ _ H) as (T & I).
  rewrite (basic_sendMessage_accepted now stamp a T I) in H. injection H as <- _.
  unfold sent_messages. cbn [AppBasic.request body chat_body].
  replace (Js.lookup (js "messages") _) with
    (JArr (map role_content (AppBasic.messages a ++ [user_entry now stamp (AppBasic.input a)])))
    by reflexivity.
  now rewrite map_app.
Qed.

Lemma persist_history (now stamp : Z) (p p' : AppPersist.State) (fp : AppPersist.InFlight) :
  AppPersist.sendMessage now stamp p = (Some fp, p') ->
  sent_messages (AppPersist.request fp) =
  map role_content (AppPersist.messages p)
  ++ [role_content (user_entry now stamp (AppPersist.input p))].
Proof.
  intros H. destruct (persist_dispatch_passed_guard _ _ _ _ _ H) as (T & I).
  rewrite (persist_sendMessage_accepted now stamp p T I) in H. injection H as <- _.
  unfold sent_messages. cbn [AppPersist.request body chat_body].
  replace (Js.lookup (js "messages") _) with
    (JArr (map role_content (AppPersist.messages p ++ [user_entry now stamp (AppPersist.input p)])))
    by reflexivity.
  now rewrite map_app.
Qed.

(** An entry that was appended last is in the history of the next request. *)
Lemma persist_last_entry_sent (now stamp : Z) (q p p' : AppPersist.State)
  (fp : AppPersist.InFlight) (notice : Message) :
  AppPersist.messages p = AppPersist.messages q ++ [notice] ->
  AppPersist.sendMessage now stamp p = (Some fp, p') ->
  In (role_content notice) (sent_messages (AppPersist.request fp)).
Proof.
  intros M H. rewrite (persist_history _ _ _ _ _ H), M, map_app.
  apply in_or_app. left. apply in_or_app. right. now left.
Qed.

(** C9: the [messages] array of a request of [sendMessage] holds, for every
    entry of the transcript of the call and in the order of the transcript,
    the object whose [role] is the name of the entry's role and whose
    [content] is the entry's content, followed by the object for the new
    user entry; so every entry is sent, however it came to be there.  In the
    screen with saved settings the notice of [saveConfig], that of
    [resetConfig], the entry of [testConnection] and the entry appended when
    an earlier [sendMessage] settled are each sent with the role [assistant]
    and their own text. *)
Theorem send_history_is_whole_transcript
  (now stamp : Z)
  (a a' : AppBasic.State) (fa : AppBasic.InFlight)
  (p p' : AppPersist.State) (fp : AppPersist.InFlight) :
  AppBasic.sendMessage now stamp a = (Some fa, a') ->
  AppPersist.sendMessage now stamp p = (Some fp, p') ->
  let pair (r : Role) (c : JsVal) :=
    JObj [(js "role", JStr (match r with
                            | user => js "user"
                            | assistant => js "assistant"
                            end));
          (js "content", c)] in
  sent_messages (AppBasic.request fa) =
    map (fun m => pair (role m) (content m)) (AppBasic.messages a)
    ++ [pair user (JStr (trim (AppBasic.input a)))]
  /\ (forall m, In m (AppBasic.messages a) ->
                In (pair (role m) (content m)) (sent_messages (AppBasic.request fa)))
  /\ sent_messages (AppPersist.request fp) =
    map (fun m => pair (role m) (content m)) (AppPersist.messages p)
    ++ [pair user (JStr (trim (AppPersist.input p)))]
  /\ (forall m, In m (AppPersist.messages p) ->
                In (pair (role m) (content m)) (sent_messages (AppPersist.request fp)))
  /\ (forall q n s, p = snd (AppPersist.saveConfig true n s q) ->
        exists text,
          AppPersist.messages p = AppPersist.messages q ++
            [{| id := toString n; role := assistant; content := JStr text; timestamp := s |}]
          /\ (exists rest, text = js "設定を保存しました" ++ rest)
          /\ In (pair assistant (JStr text)) (sent_messages (AppPersist.request fp)))
  /\ (forall q n s, p = snd (AppPersist.resetConfig n s q) ->
        exists text,
          AppPersist.messages p = AppPersist.messages q ++
            [{| id := toString n; role := assistant; content := JStr text; timestamp := s |}]
          /\ (exists rest, text = js "設定をデフォルトに戻しました" ++ rest)
          /\ In (pair assistant (JStr text)) (sent_messages (AppPersist.request fp)))
  /\ (forall q relay n s, p = AppPersist.test relay n s q ->
        exists text,
          AppPersist.messages p = AppPersist.messages q ++
            [{| id := toString n; role := assistant; content := JStr text; timestamp := s |}]
          /\ ((exists rest, text = js "接続成功！" ++ rest)
              \/ (exists rest, text = js "接続エラー" ++ rest))
          /\ In (pair assistant (JStr text)) (sent_messages (AppPersist.request fp)))
  /\ (forall q fl o n s typed,
        p = snd (AppPersist.input_onChange typed
                   (snd (AppPersist.sendMessage_settled n s fl o q))) ->
        exists said,
          AppPersist.messages p = AppPersist.messages q ++
            [{| id := toString (n + 1); role := assistant; content := said; timestamp := s |}]
          /\ In (pair assistant said) (sent_messages (AppPersist.request fp))).
Proof.
  intros Ha Hp pair.
  pose proof (basic_history _ _ _ _ _ Ha) as Ea.
  pose proof (persist_history _ _ _ _ _ Hp) as Ep.
  change (sent_messages (AppBasic.request fa) =
          map (fun m => pair (role m) (content m)) (AppBasic.messages a)
          ++ [pair user (JStr (trim (AppBasic.input a)))]) in Ea.
  change (sent_messages (AppPersist.request fp) =
          map (fun m => pair (role m) (content m)) (AppPersist.messages p)
          ++ [pair user (JStr (trim (AppPersist.input p)))]) in Ep.
  split; [exact Ea|]. split.
  { intros m Hm. rewrite Ea. apply in_or_app. left.
    exact (in_map (fun m => pair (role m) (content m)) _ _ Hm). }
  split; [exact Ep|]. split.
  { intros m Hm. rewrite Ep. apply in_or_app. left.
    exact (in_map (fun m => pair (role m) (content m)) _ _ Hm). }
  assert (K : forall q entry,
             AppPersist.messages p = AppPersist.messages q ++ [entry] ->
             In (pair (role entry) (content entry)) (sent_messages (AppPersist.request fp))).
  { intros q entry M. rewrite Ep, M, map_app.
    apply in_or_app. left. apply in_or_app. right. now left. }
  split; [|split; [|split]].
  - intros q n s E. eexists. split; [rewrite E; reflexivity|].
    split; [eexists; reflexivity|].
    refine (K q {| id := toString n; role := assistant; content := _; timestamp := s |} _).
    rewrite E. reflexivity.
  - intros q n s E. eexists. split; [rewrite E; reflexivity|].
    split; [eexists; reflexivity|].
    refine (K q {| id := toString n; role := assistant; content := _; timestamp := s |} _).
    rewrite E. reflexivity.
  - intros q relay n s E.
    unfold AppPersist.test, AppPersist.testConnection, AppPersist.testConnection_settled in E.
    cbn [React.bind React.ret React.update AppPersist.setIsLoading AppPersist.request] in E.
    destruct (response <?- awaited _ ;; checked_data response) in E.
    + eexists. split; [rewrite E; reflexivity|].
      split; [left; eexists; reflexivity|].
      refine (K q {| id := toString n; role := assistant; content := _; timestamp := s |} _).
      rewrite E. reflexivity.
    + eexists. split; [rewrite E; reflexivity|].
      split; [right; eexists; reflexivity|].
      refine (K q {| id := toString n; role := assistant; content := _; timestamp := s |} _).
      rewrite E. reflexivity.
  - intros q fl o n s typed E.
    destruct (persist_settled_appends_one n s fl o q) as (reply & S & R & I & T).
    rewrite S in E. cbn in E.
    assert (M : AppPersist.messages p = AppPersist.messages q ++ [reply])
      by (rewrite E; reflexivity).
    exists (content reply). split.
    + rewrite M. destruct reply as [ri rr rc rt]. cbn in R, I, T. now subst.
    + rewrite <- R. exact (K q reply M).
Qed.

Lemma send_history_is_whole_transcript_witness :
  let a := Samples.basic (js "hello") false DEFAULT_CONFIG [Samples.greeting] in
  let q := Samples.persist (js "hello") false DEFAULT_CONFIG DEFAULT_CONFIG [Samples.greeting] in
  let p := snd (AppPersist.saveConfig true 5 5 q) in
  exists fa a' fp p',
    (AppBasic.sendMessage 9 9 a = (Some fa, a')
     /\ AppPersist.sendMessage 9 9 p = (Some fp, p'))
    /\ sent_messages (AppBasic.request fa) =
       [JObj [(js "role", JStr (js "assistant")); (js "content", JStr (js "こんにちは"))];
        JObj [(js "role", JStr (js "user")); (js "content", JStr (js "hello"))]]
    /\ sent_messages (AppPersist.request fp) =
       [JObj [(js "role", JStr (js "assistant")); (js "content", JStr (js "こんにちは"))];
        JObj [(js "role", JStr (js "assistant"));
              (js "content",
               JStr (js "設定を保存しました" ++ nl
                     ++ js "・API URL: http://localhost:1234" ++ nl
                     ++ js "・モデル名: local-model"))];
        JObj [(js "role", JStr (js "user")); (js "content", JStr (js "hello"))]].
Proof.
  do 4 eexists.
  assert (Ha : AppBasic.sendMessage 9 9
                 (Samples.basic (js "hello") false DEFAULT_CONFIG [Samples.greeting])
               = (Some _, _)) by (vm_compute; reflexivity).
  assert (Hp : AppPersist.sendMessage 9 9
                 (snd (AppPersist.saveConfig true 5 5
                         (Samples.persist (js "hello") false DEFAULT_CONFIG DEFAULT_CONFIG
                            [Samples.greeting])))
               = (Some _, _)) by (vm_compute; reflexivity).
  split; [split; [exact Ha | exact Hp]|].
  destruct (send_history_is_whole_transcript 9 9 _ _ _ _ _ _ Ha Hp)
    as (Ea & _ & Ep & _).
  rewrite Ea, Ep. split; vm_compute; reflexivity.
Defined.

(** ** Saving and resetting the configuration *)

(** C6: [saveConfig] makes active the staged configuration with both fields
    trimmed and each field that is blank once trimmed replaced by its
    default, whether or not the write to the storage succeeds; when it
    succeeds that same configuration is what is stored.  Saving the staged
    base URL of two spaces with the model [gpt] makes
    [http://localhost:1234] and [gpt] active. *)
Theorem saveConfig_trims_and_defaults
  (setItem_ok : bool) (now stamp : Z) (st : AppPersist.State) :
  let staged := AppPersist.tempConfig st in
  let st' := snd (AppPersist.saveConfig setItem_ok now stamp st) in
  let active := AppPersist.config st' in
  ((trim (baseUrl staged) = [] /\ baseUrl active = js "http://localhost:1234")
   \/ (trim (baseUrl staged) <> [] /\ baseUrl active = trim (baseUrl staged)))
  /\ ((trim (model staged) = [] /\ model active = js "local-model")
      \/ (trim (model staged) <> [] /\ model active = trim (model staged)))
  /\ (if setItem_ok
      then AppPersist.storage st' = Some active
           /\ exists notice, AppPersist.messages st' = AppPersist.messages st ++ [notice]
      else AppPersist.storage st' = AppPersist.storage st
           /\ AppPersist.messages st' = AppPersist.messages st
           /\ AppPersist.alerts st' =
              AppPersist.alerts st ++ [js "設定の保存に失敗しました"])
  /\ (staged = {| baseUrl := js "  "; model := js "gpt" |} ->
      active = {| baseUrl := js "http://localhost:1234"; model := js "gpt" |}).
Proof.
  intros staged st' active.
  assert (A : active =
              {| baseUrl := AppPersist.or_default (trim (baseUrl staged)) (baseUrl DEFAULT_CONFIG);
                 model := AppPersist.or_default (trim (model staged)) (model DEFAULT_CONFIG) |}).
  { subst active st' staged. unfold AppPersist.saveConfig. now destruct setItem_ok. }
  split; [|split; [|split]].
  - rewrite A. cbn [baseUrl]. destruct (trim (baseUrl staged)) as [|c r].
    + left. now split.
    + right. split; [discriminate | reflexivity].
  - rewrite A. cbn [model]. destruct (trim (model staged)) as [|c r].
    + left. now split.
    + right. split; [discriminate | reflexivity].
  - subst active st' staged. unfold AppPersist.saveConfig. destruct setItem_ok.
    + split; [reflexivity|]. eexists. reflexivity.
    + repeat split.
  - intros E. rewrite A, E. reflexivity.
Qed.

(** [resetConfig] makes the defaults active and staged and removes the stored
    item, from any state (P8). *)
Lemma resetConfig_restores_defaults (now stamp : Z) (st : AppPersist.State) :
  let st' := snd (AppPersist.resetConfig now stamp st) in
  AppPersist.config st' = DEFAULT_CONFIG
  /\ AppPersist.tempConfig st' = DEFAULT_CONFIG
  /\ AppPersist.storage st' = None.
Proof. repeat split. Qed.

(** [clearChat] empties the transcript and doing it twice changes nothing
    more (P3). *)
Lemma clearChat_empties (st : AppPersist.State) :
  AppPersist.messages (snd (AppPersist.clearChat st)) = []
  /\ snd (AppPersist.clearChat (snd (AppPersist.clearChat st))) = snd (AppPersist.clearChat st).
Proof. split; reflexivity. Qed.

(** ** The URL of a request *)

(** In the screen with saved settings a base URL written with one closing
    separator and the same base written without it give the same URL. *)
Lemma persist_apiUrl_one_separator (base name : jsstring) :
  AppPersist.apiUrl {| baseUrl := base ++ [slash]; model := name |}
  = base ++ js "/v1/chat/completions"
  /\ AppPersist.modelsUrl {| baseUrl := base ++ [slash]; model := name |}
     = base ++ js "/v1/models"
  /\ (endsWith base slash = false ->
      AppPersist.apiUrl {| baseUrl := base; model := name |}
      = base ++ js "/v1/chat/completions"
      /\ AppPersist.modelsUrl {| baseUrl := base; model := name |}
         = base ++ js "/v1/models").
Proof.
  unfold AppPersist.apiUrl, AppPersist.modelsUrl. cbn [baseUrl].
  rewrite endsWith_snoc. cbn [N.eqb slash Pos.eqb]. rewrite <- !app_assoc.
  split; [reflexivity|]. split; [reflexivity|].
  intros ->. now split.
Qed.

Example persist_apiUrl_examples :
  AppPersist.apiUrl {| baseUrl := js "http://x/"; model := js "m" |}
  = js "http://x/v1/chat/completions"
  /\ AppPersist.apiUrl {| baseUrl := js "http://x"; model := js "m" |}
     = js "http://x/v1/chat/completions"
  /\ AppPersist.modelsUrl {| baseUrl := js "http://x/"; model := js "m" |}
     = js "http://x/v1/models"
  /\ AppPersist.modelsUrl {| baseUrl := js "http://x"; model := js "m" |}
     = js "http://x/v1/models".
Proof. vm_compute. repeat split. Qed.

(** C4 at the input where [src/src/App.tsx] departs from it: that screen
    appends the path to the base URL as it stands, so with the base
    [http://x/] the request of [sendMessage] goes to a URL with two
    separators in a row, and so does that of [testConnection]. *)
Theorem basic_endpoint_doubles_separator :
  let a := Samples.basic (js "hello") false
             {| baseUrl := js "http://x/"; model := js "local-model" |} [] in
  exists fl a',
    AppBasic.sendMessage 1 1 a = (Some fl, a')
    /\ endpoint (AppBasic.request fl) = js "http://x//v1/chat/completions"
    /\ endpoint (AppBasic.request fl) <> js "http://x/v1/chat/completions"
    /\ endpoint (AppBasic.request (fst (AppBasic.testConnection a)))
       = js "http://x//v1/models".
Proof.
  do 2 eexists. split; [vm_compute; reflexivity|].
  split; [vm_compute; reflexivity|]. split; [vm_compute; discriminate|].
  vm_compute. reflexivity.
Qed.

(** ** The identifiers of the entries *)

(** Within one exchange the reply is named after a later clock reading than
    the question, as long as the clock did not run backwards in between. *)
Lemma exchange_ids_differ (relay : Request -> Outcome) (now stamp now' stamp' : Z)
  (p p2 : AppPersist.State) :
  now <= now' ->
  AppPersist.send relay now stamp now' stamp' p = Some p2 ->
  exists question reply,
    AppPersist.messages p2 = AppPersist.messages p ++ [question; reply]
    /\ id question = toString now
    /\ id reply = toString (now' + 1)
    /\ id question <> id reply.
Proof.
  intros Hle H. unfold AppPersist.send in H.
  destruct (AppPersist.sendMessage now stamp p) as [[fl|] p1] eqn:E; [|discriminate].
  destruct (persist_dispatch_passed_guard _ _ _ _ _ E) as (T & I).
  rewrite (persist_sendMessage_accepted now stamp p T I) in E. injection E as <- <-.
  match type of H with context [AppPersist.sendMessage_settled _ _ ?fl ?o ?st] =>
    destruct (persist_settled_appends_one now' stamp' fl o st) as (reply & S & _ & R & _)
  end.
  rewrite S in H. injection H as <-. cbn [AppPersist.messages].
  exists (user_entry now stamp (AppPersist.input p)), reply.
  rewrite <- app_assoc. split; [reflexivity|]. split; [reflexivity|].
  split; [exact R|]. rewrite R. cbn [id user_entry].
  intros C. apply toString_inj in C. lia.
Qed.

(** C8 at inputs where the code departs from it: an identifier is the
    reading of the millisecond clock at creation (plus one for the reply of
    [sendMessage]), so two entries created at the same reading, here by two
    runs of [resetConfig], carry the same identifier, and so do the reply of
    an exchange settled at one reading and an entry created at the next. *)
Theorem same_clock_reading_same_id
  (relay : Request -> Outcome) (t now stamp stamp' stamp'' : Z) (st : AppPersist.State) :
  (exists first second,
      AppPersist.messages
        (snd (AppPersist.resetConfig t stamp' (snd (AppPersist.resetConfig t stamp st))))
      = AppPersist.messages st ++ [first; second]
      /\ id first = id second)
  /\
  (forall st2, AppPersist.send relay now stamp t stamp' st = Some st2 ->
     exists question reply notice,
       AppPersist.messages (snd (AppPersist.resetConfig (t + 1) stamp'' st2))
       = AppPersist.messages st ++ [question; reply; notice]
       /\ id reply = id notice).
Proof.
  split.
  - do 2 eexists. unfold AppPersist.resetConfig.
    cbn [React.bind React.update AppPersist.setTempConfig AppPersist.setConfig
         AppPersist.setStorage AppPersist.setMessages AppPersist.messages snd].
    rewrite <- app_assoc. split; reflexivity.
  - intros st2 H. unfold AppPersist.send in H.
    destruct (AppPersist.sendMessage now stamp st) as [[fl|] st1] eqn:E; [|discriminate].
    destruct (persist_dispatch_passed_guard _ _ _ _ _ E) as (T & I).
    rewrite (persist_sendMessage_accepted now stamp st T I) in E. injection E as <- <-.
    match type of H with context [AppPersist.sendMessage_settled _ _ ?fl ?o ?s1] =>
      destruct (persist_settled_appends_one t stamp' fl o s1) as (reply & S & _ & R & _)
    end.
    rewrite S in H. injection H as <-.
    exists (user_entry now stamp (AppPersist.input st)), reply. eexists.
    unfold AppPersist.resetConfig.
    cbn [React.bind React.update AppPersist.setTempConfig AppPersist.setConfig
         AppPersist.setStorage AppPersist.setMessages AppPersist.messages snd].
    rewrite <- !app_assoc. split; [reflexivity|]. exact R.
Qed.

Example two_resets_one_id :
  map id (AppPersist.messages
            (snd (AppPersist.resetConfig 1700000000000 1700000000000
               (snd (AppPersist.resetConfig 1700000000000 1700000000000
                  (Samples.persist [] false DEFAULT_CONFIG DEFAULT_CONFIG []))))))
  = [js "1700000000000"; js "1700000000000"].
Proof. vm_compute. reflexivity. Qed.

(** ** The relay *)

Section RelayFacts.

Variable fetch : jsstring -> Relay.FetchInit -> Completion Relay.Response.

(** C3, as the code has it: the handler throws exactly when [fetch] itself
    fails, or the response has a status outside 200-299, or the body of a
    response with such a status does not parse.  In the second case the error
    is the one the handler makes, whose message ends with the status in
    decimal; in the other two it is the error of [fetch] or of the parser,
    thrown again as it is.  Otherwise the handler returns the parsed body
    under the tag [json]. *)
Theorem relay_throws_iff (d : Request) :
  let result := Relay.call_lm_studio_api fetch d in
  let fetched := fetch (endpoint d) (Relay.fetch_init d) in
  ((exists error, result = Throw error) <->
   (exists error, fetched = Throw error)
   \/ (exists response, fetched = Normal response /\ Relay.ok response = false)
   \/ (exists response error, fetched = Normal response /\ Relay.ok response = true
                              /\ Relay.json response = Throw error))
  /\ (forall error, fetched = Throw error -> result = Throw error)
  /\ (forall response, fetched = Normal response -> Relay.ok response = false ->
        result = Throw (ErrorObj (js "HTTP error! status: "
                                  ++ toString (Relay.status response))))
  /\ (forall response error, fetched = Normal response -> Relay.ok response = true ->
        Relay.json response = Throw error -> result = Throw error)
  /\ (forall response data, fetched = Normal response -> Relay.ok response = true ->
        Relay.json response = Normal data -> result = Normal (json_result data)).
Proof.
  intros result fetched. subst result. unfold Relay.call_lm_studio_api.
  fold fetched. destruct fetched as [response | e]; cbn [andThen].
  - destruct (Relay.ok response) eqn:K; cbn [negb].
    + destruct (Relay.json response) as [data | e] eqn:J; cbn [andThen].
      * split; [|repeat split; intros; congruence].
        split.
        -- intros (error & H). discriminate.
        -- intros [(error & H) | [(r & H & K') | (r & error & H & _ & J')]];
             try discriminate; injection H as <-; congruence.
      * split; [|repeat split; intros; congruence].
        split.
        -- intros _. right. right. now exists response, e.
        -- intros _. now exists e.
    + split; [|repeat split; intros; congruence].
      split.
      * intros _. right. left. now exists response.
      * intros _. eexists. reflexivity.
  - split; [|repeat split; intros; congruence].
    split.
    + intros _. left. now exists e.
    + intros _. now exists e.
Qed.

End RelayFacts.

(** C3, as stated, fails when [fetch] is rejected: the handler throws, and
    there is no response whose status or body could be the cause. *)
Lemma relay_throws_without_response :
  let fetch := Samples.fetch_refused in
  let d := Samples.models_request in
  Relay.call_lm_studio_api fetch d = Throw (ErrorObj (js "fetch failed"))
  /\ (forall response, fetch (endpoint d) (Relay.fetch_init d) <> Normal response).
Proof. split; [reflexivity | discriminate]. Qed.

Example relay_status_500 :
  Relay.call_lm_studio_api (Samples.fetch_status 500 JNull) Samples.models_request
  = Throw (ErrorObj (js "HTTP error! status: 500")).
Proof. vm_compute. reflexivity. Qed.

Example relay_status_200 :
  Relay.call_lm_studio_api (Samples.fetch_status 200 (JObj [])) Samples.models_request
  = Normal (json_result (JObj [])).
Proof. vm_compute. reflexivity. Qed.

(** * Further properties of the code *)

(** ** What [trim] keeps *)

Section TrimFacts.

Definition blank (l : jsstring) : Prop := Forall (fun c => is_white_space c = true) l.

Lemma trimStart_split (s : jsstring) :
  exists pre, s = pre ++ trimStart s /\ blank pre.
Proof.
  induction s as [|c s (pre & E & B)]; simpl.
  - exists []. split; [reflexivity | constructor].
  - destruct (is_white_space c) eqn:W.
    + exists (c :: pre). split; [simpl; now rewrite <- E | now constructor].
    + exists []. split; [reflexivity | constructor].
Qed.

Lemma trimStart_head (s r : jsstring) (c : N) :
  trimStart s = c :: r -> is_white_space c = false.
Proof.
  induction s as [|d s IH]; simpl; [discriminate|].
  destruct (is_white_space d) eqn:W; [exact IH|].
  intros E. injection E as <- _. exact W.
Qed.

Lemma trimStart_fixed (s : jsstring) :
  (forall c r, s = c :: r -> is_white_space c = false) -> trimStart s = s.
Proof.
  destruct s as [|c r]; intros H; simpl; [reflexivity|].
  now rewrite (H c r eq_refl).
Qed.

Lemma trimStart_idem (s : jsstring) : trimStart (trimStart s) = trimStart s.
Proof. apply trimStart_fixed. intros c r E. exact (trimStart_head _ _ _ E). Qed.

Lemma trimEnd_split (t : jsstring) :
  exists post, t = trimEnd t ++ post /\ blank post.
Proof.
  unfold trimEnd. destruct (trimStart_split (rev t)) as (pre & E & B).
  exists (rev pre). split.
  - rewrite <- rev_app_distr, <- E. now rewrite rev_involutive.
  - unfold blank in *. apply Forall_forall. intros x Hx.
    apply in_rev in Hx. rewrite Forall_forall in B. now apply B.
Qed.

Lemma trimEnd_last (t r : jsstring) (c : N) :
  trimEnd t = r ++ [c] -> is_white_space c = false.
Proof.
  unfold trimEnd. intros E. apply (f_equal (@rev N)) in E.
  rewrite rev_involutive, rev_app_distr in E. simpl in E.
  exact (trimStart_head _ _ _ E).
Qed.

Lemma trim_split (s : jsstring) :
  exists pre post, s = pre ++ trim s ++ post /\ blank pre /\ blank post.
Proof.
  destruct (trimStart_split s) as (pre & E & B).
  destruct (trimEnd_split (trimStart s)) as (post & E' & B').
  exists pre, post. unfold trim. now rewrite <- E', <- E.
Qed.

Lemma trim_head (s r : jsstring) (c : N) :
  trim s = c :: r -> is_white_space c = false.
Proof.
  unfold trim. intros E.
  destruct (trimEnd_split (trimStart s)) as (post & E' & _).
  rewrite E in E'. simpl in E'. exact (trimStart_head _ _ _ E').
Qed.

Lemma trim_last (s r : jsstring) (c : N) :
  trim s = r ++ [c] -> is_white_space c = false.
Proof. unfold trim. apply trimEnd_last. Qed.

Lemma trim_idem (s : jsstring) : trim (trim s) = trim s.
Proof.
  assert (H : trimStart (trim s) = trim s).
  { apply trimStart_fixed. intros c r E. exact (trim_head _ _ _ E). }
  unfold trim at 1. rewrite H. unfold trim, trimEnd.
  now rewrite rev_involutive, trimStart_idem.
Qed.

Lemma trim_fixed (s : jsstring) :
  (forall c r, s = c :: r -> is_white_space c = false) ->
  (forall r c, s = r ++ [c] -> is_white_space c = false) ->
  trim s = s.
Proof.
  intros Hh Hl. unfold trim. rewrite (trimStart_fixed s Hh). unfold trimEnd.
  rewrite trimStart_fixed; [apply rev_involutive|].
  intros c r E. apply (Hl (rev r) c).
  rewrite <- (rev_involutive s), E. reflexivity.
Qed.

End TrimFacts.

(** X1: the user entry of a dispatched [sendMessage] carries the text of the
    input without the blanks around it: the input is that text between two
    runs of white space, the text is not empty, and it neither starts nor
    ends with white space.  What lies between is kept as typed. *)
Theorem user_entry_is_input_without_margins
  (now stamp : Z)
  (a a' : AppBasic.State) (fa : AppBasic.InFlight)
  (p p' : AppPersist.State) (fp : AppPersist.InFlight) :
  AppBasic.sendMessage now stamp a = (Some fa, a') ->
  AppPersist.sendMessage now stamp p = (Some fp, p') ->
  (exists pre text post,
      AppBasic.input a = pre ++ text ++ post /\ blank pre /\ blank post
      /\ text <> []
      /\ (forall c r, text = c :: r -> is_white_space c = false)
      /\ (forall r c, text = r ++ [c] -> is_white_space c = false)
      /\ AppBasic.messages a' =
         AppBasic.messages a ++
         [{| id := toString now; role := user; content := JStr text; timestamp := stamp |}])
  /\
  (exists pre text post,
      AppPersist.input p = pre ++ text ++ post /\ blank pre /\ blank post
      /\ text <> []
      /\ (forall c r, text = c :: r -> is_white_space c = false)
      /\ (forall r c, text = r ++ [c] -> is_white_space c = false)
      /\ AppPersist.messages p' =
         AppPersist.messages p ++
         [{| id := toString now; role := user; content := JStr text; timestamp := stamp |}]).
Proof.
  intros Ha Hp. split.
  - destruct (basic_dispatch_passed_guard _ _ _ _ _ Ha) as (T & I).
    rewrite (basic_sendMessage_accepted now stamp a T I) in Ha. injection Ha as _ <-.
    destruct (trim_split (AppBasic.input a)) as (pre & post & E & B & B').
    exists pre, (trim (AppBasic.input a)), post.
    repeat split; try assumption.
    + intros c r. apply trim_head.
    + intros r c. apply trim_last.
  - destruct (persist_dispatch_passed_guard _ _ _ _ _ Hp) as (T & I).
    rewrite (persist_sendMessage_accepted now stamp p T I) in Hp. injection Hp as _ <-.
    destruct (trim_split (AppPersist.input p)) as (pre & post & E & B & B').
    exists pre, (trim (AppPersist.input p)), post.
    repeat split; try assumption.
    + intros c r. apply trim_head.
    + intros r c. apply trim_last.
Qed.

Lemma user_entry_is_input_without_margins_witness :
  let a := Samples.basic (js "  hello world ") false DEFAULT_CONFIG [] in
  let p := Samples.persist (js "  hello world ") false DEFAULT_CONFIG DEFAULT_CONFIG [] in
  exists fa a' fp p',
    (AppBasic.sendMessage 1 1 a = (Some fa, a')
     /\ AppPersist.sendMessage 1 1 p = (Some fp, p'))
    /\ (exists pre text post,
          AppPersist.input p = pre ++ text ++ post /\ blank pre /\ blank post
          /\ text <> []
          /\ (forall c r, text = c :: r -> is_white_space c = false)
          /\ (forall r c, text = r ++ [c] -> is_white_space c = false)
          /\ AppPersist.messages p' =
             AppPersist.messages p ++
             [{| id := toString 1; role := user; content := JStr text; timestamp := 1 |}]).
Proof.
  do 4 eexists.
  assert (Ha : AppBasic.sendMessage 1 1
                 (Samples.basic (js "  hello world ") false DEFAULT_CONFIG [])
               = (Some _, _)) by (vm_compute; reflexivity).
  assert (Hp : AppPersist.sendMessage 1 1
                 (Samples.persist (js "  hello world ") false DEFAULT_CONFIG DEFAULT_CONFIG [])
               = (Some _, _)) by (vm_compute; reflexivity).
  split; [split; [exact Ha | exact Hp]|].
  exact (proj2 (user_entry_is_input_without_margins 1 1 _ _ _ _ _ _ Ha Hp)).
Defined.

(** ** The controls and the guard *)

Section Controls.

Variables now stamp : Z.

(** What [sendMessage] does, in one statement: it returns at its guard and
    changes nothing, or it dispatches and leaves the state of
    [persist_sendMessage_accepted]. *)
Lemma persist_sendMessage_cases (st : AppPersist.State) :
  (Session.sendButton_disabled st = true
   /\ AppPersist.sendMessage now stamp st = (None, st))
  \/ (Session.sendButton_disabled st = false
      /\ trim (AppPersist.input st) <> [] /\ AppPersist.isLoading st = false).
Proof.
  unfold Session.sendButton_disabled.
  destruct (trim (AppPersist.input st)) as [|c r] eqn:T.
  - left. split; [reflexivity|]. apply persist_sendMessage_refused. now left.
  - destruct (AppPersist.isLoading st) eqn:I.
    + left. split; [reflexivity|]. apply persist_sendMessage_refused. now right.
    + right. repeat split. discriminate.
Qed.

Lemma basic_sendMessage_cases (st : AppBasic.State) :
  (BasicUi.sendButton_disabled st = true
   /\ AppBasic.sendMessage now stamp st = (None, st))
  \/ (BasicUi.sendButton_disabled st = false
      /\ trim (AppBasic.input st) <> [] /\ AppBasic.isLoading st = false).
Proof.
  unfold BasicUi.sendButton_disabled.
  destruct (trim (AppBasic.input st)) as [|c r] eqn:T.
  - left. split; [reflexivity|]. apply basic_sendMessage_refused. now left.
  - destruct (AppBasic.isLoading st) eqn:I.
    + left. split; [reflexivity|]. apply basic_sendMessage_refused. now right.
    + right. repeat split. discriminate.
Qed.

End Controls.

(** X2: in both screens the send button is enabled exactly when
    [sendMessage] would dispatch, so a click on it is a plain call of
    [sendMessage]; and of the keys only Enter without Shift does anything:
    it calls [sendMessage] and suppresses the line break, every other key
    press leaves the state alone and dispatches nothing. *)
Theorem send_button_enabled_iff_dispatch
  (now stamp : Z) (a : AppBasic.State) (p : AppPersist.State) (e : KeyboardEvent) :
  (BasicUi.sendButton_disabled a = false <->
   exists fl a', AppBasic.sendMessage now stamp a = (Some fl, a'))
  /\ BasicUi.sendButton_click now stamp a = AppBasic.sendMessage now stamp a
  /\ (Session.sendButton_disabled p = false <->
      exists fl p', AppPersist.sendMessage now stamp p = (Some fl, p'))
  /\ Session.sendButton_click now stamp p = AppPersist.sendMessage now stamp p
  /\ ((key e = js "Enter" /\ shiftKey e = false
       /\ BasicUi.handleKeyPress e now stamp a =
          ((true, fst (AppBasic.sendMessage now stamp a)),
           snd (AppBasic.sendMessage now stamp a))
       /\ Session.handleKeyPress e now stamp p =
          ((true, fst (AppPersist.sendMessage now stamp p)),
           snd (AppPersist.sendMessage now stamp p)))
      \/ ((key e <> js "Enter" \/ shiftKey e = true)
          /\ BasicUi.handleKeyPress e now stamp a = ((false, None), a)
          /\ Session.handleKeyPress e now stamp p = ((false, None), p))).
Proof.
  split; [|split; [|split; [|split]]].
  - destruct (basic_sendMessage_cases now stamp a) as [(D & R) | (D & T & I)]; rewrite D.
    + split; [discriminate|]. intros (fl & a' & H). rewrite R in H. discriminate.
    + split; [|reflexivity]. intros _.
      rewrite (basic_sendMessage_accepted now stamp a T I). now do 2 eexists.
  - unfold BasicUi.sendButton_click.
    destruct (basic_sendMessage_cases now stamp a) as [(D & R) | (D & _)]; rewrite D;
      [now rewrite R | reflexivity].
  - destruct (persist_sendMessage_cases now stamp p) as [(D & R) | (D & T & I)]; rewrite D.
    + split; [discriminate|]. intros (fl & p' & H). rewrite R in H. discriminate.
    + split; [|reflexivity]. intros _.
      rewrite (persist_sendMessage_accepted now stamp p T I). now do 2 eexists.
  - unfold Session.sendButton_click.
    destruct (persist_sendMessage_cases now stamp p) as [(D & R) | (D & _)]; rewrite D;
      [now rewrite R | reflexivity].
  - unfold BasicUi.handleKeyPress, Session.handleKeyPress.
    destruct (eqb (key e) (js "Enter")) eqn:K.
    + apply eqb_eq in K. destruct (shiftKey e) eqn:S; cbn [negb andb].
      * right. split; [now right|]. now split.
      * left. split; [exact K|]. split; [reflexivity|].
        destruct (AppBasic.sendMessage now stamp a), (AppPersist.sendMessage now stamp p).
        now split.
    + right. cbn [andb]. split; [|now split].
      left. intros C. apply eqb_eq in C. congruence.
Qed.

(** ** One connection test *)

Lemma persist_test_settled_appends_one
  (now stamp : Z) (fl : AppPersist.InFlight) (o : Outcome) (st : AppPersist.State) :
  exists entry text,
    snd (AppPersist.testConnection_settled now stamp fl o st) =
    {| AppPersist.messages := AppPersist.messages st ++ [entry];
       AppPersist.input := AppPersist.input st;
       AppPersist.isLoading := false;
       AppPersist.config := AppPersist.config st;
       AppPersist.showConfig := AppPersist.showConfig st;
       AppPersist.tempConfig := AppPersist.tempConfig st;
       AppPersist.storage := AppPersist.storage st;
       AppPersist.alerts := AppPersist.alerts st |}
    /\ entry = {| id := toString now; role := assistant;
                  content := JStr text; timestamp := stamp |}
    /\ occurs_in (baseUrl (AppPersist.config (AppPersist.closure fl))) text
    /\ ((exists data, (response <?- awaited o ;; checked_data response) = Normal data
                      /\ exists rest, text = js "接続成功！" ++ rest)
        \/ (exists error, (response <?- awaited o ;; checked_data response) = Throw error
                          /\ (exists rest, text = js "接続エラー" ++ rest)
                          /\ occurs_in (error_text error) text)).
Proof.
  unfold AppPersist.testConnection_settled.
  destruct (response <?- awaited o ;; checked_data response) as [data | error].
  - do 2 eexists. split; [reflexivity|]. split; [reflexivity|]. split.
    + occurs_here (js "接続成功！" ++ nl ++ nl ++ js "API URL: ") (@nil N).
    + left. exists data. split; [reflexivity|]. eexists. reflexivity.
  - do 2 eexists. split; [reflexivity|]. split; [reflexivity|]. split.
    + occurs_here (js "接続エラー" ++ nl ++ nl ++ js "API URL: ")
        (nl ++ js "エラー内容: " ++ error_text error ++ nl ++ nl
         ++ js "設定を確認してください。").
    + right. exists error. split; [reflexivity|]. split; [eexists; reflexivity|].
      occurs_here
        (js "接続エラー" ++ nl ++ nl ++ js "API URL: "
         ++ baseUrl (AppPersist.config (AppPersist.closure fl)) ++ nl ++ js "エラー内容: ")
        (nl ++ nl ++ js "設定を確認してください。").
Qed.

(** X3: run alone, [testConnection] appends exactly one assistant entry and
    clears [isLoading], whether the call resolves or is rejected; the entry
    names the configured base URL either way, starts with the success
    marker when the answer carries the tag [json] and a truthy [data], and
    otherwise starts with the failure marker and carries the message of the
    error.  In [src/src/App.tsx] the same run leaves the transcript as it
    was and shows exactly one alert. *)
Theorem testConnection_reports_once
  (relay : Request -> Outcome) (now stamp : Z)
  (a : AppBasic.State) (p : AppPersist.State) :
  (exists text,
      AppPersist.messages (AppPersist.test relay now stamp p) =
      AppPersist.messages p ++
      [{| id := toString now; role := assistant; content := JStr text; timestamp := stamp |}]
      /\ AppPersist.isLoading (AppPersist.test relay now stamp p) = false
      /\ occurs_in (baseUrl (AppPersist.config p)) text
      /\ ((exists rest, text = js "接続成功！" ++ rest)
          \/ (exists rest, text = js "接続エラー" ++ rest)))
  /\
  (let (fl, a1) := AppBasic.testConnection a in
   let a2 := snd (AppBasic.testConnection_settled fl (relay (AppBasic.request fl)) a1) in
   AppBasic.messages a2 = AppBasic.messages a
   /\ (exists box, AppBasic.alerts a2 = AppBasic.alerts a ++ [box])
   /\ AppBasic.isLoading a2 = false).
Proof.
  split.
  - unfold AppPersist.test.
    destruct (AppPersist.testConnection p) as [fl p1] eqn:E.
    unfold AppPersist.testConnection in E.
    cbn [React.bind React.ret React.update AppPersist.setIsLoading] in E.
    injection E as <- <-.
    match goal with |- context [AppPersist.testConnection_settled _ _ ?fl ?o ?st] =>
      destruct (persist_test_settled_appends_one now stamp fl o st)
        as (entry & text & S & -> & U & K)
    end.
    exists text. rewrite S. cbn [AppPersist.messages AppPersist.isLoading].
    split; [reflexivity|]. split; [reflexivity|]. split; [exact U|].
    destruct K as [(_ & _ & R) | (_ & _ & R & _)]; [left | right]; exact R.
  - unfold AppBasic.testConnection, AppBasic.testConnection_settled.
    cbn [React.bind React.ret React.update AppBasic.setIsLoading AppBasic.request].
    destruct (response <?- awaited _ ;; data <?- checked_data response ;; AppBasic.model_count data);
      (split; [reflexivity|]; split; [eexists; reflexivity | reflexivity]).
Qed.

(** ** Sessions *)

Section SessionFacts.

Import Session.

Definition one_call_at_most (sys : System) : Prop :=
  (pending sys = [] /\ AppPersist.isLoading (ui sys) = false)
  \/ (exists c, pending sys = [c] /\ AppPersist.isLoading (ui sys) = true).

Lemma settle_clears_isLoading (c : Call) (o : Outcome) (now stamp : Z) (st : AppPersist.State) :
  AppPersist.isLoading (snd (settle c o now stamp st)) = false
  /\ AppPersist.config (snd (settle c o now stamp st)) = AppPersist.config st
  /\ exists entry, AppPersist.messages (snd (settle c o now stamp st))
                   = AppPersist.messages st ++ [entry]
                   /\ role entry = assistant.
Proof.
  destruct c as [fl | fl]; cbn [settle].
  - destruct (persist_settled_appends_one now stamp fl o st) as (reply & S & R & _).
    rewrite S. split; [reflexivity|]. split; [reflexivity|]. now exists reply.
  - destruct (persist_test_settled_appends_one now stamp fl o st)
      as (entry & text & S & E & _).
    rewrite S. split; [reflexivity|]. split; [reflexivity|].
    exists entry. split; [reflexivity | now subst entry].
Qed.

Lemma step_keeps_one_call (sys : System) (e : Event) :
  one_call_at_most sys -> one_call_at_most (step sys e).
Proof.
  intros Inv. destruct e; cbn [step].
  - destruct (AppPersist.isLoading (ui sys)) eqn:L; [exact Inv|].
    destruct Inv as [(P & I) | (c & P & I)]; [left | congruence]. now split.
  - destruct (AppPersist.isLoading (ui sys)) eqn:L; [exact Inv|].
    destruct Inv as [(P & I) | (c & P & I)]; [|congruence].
    unfold handleKeyPress. destruct (eqb (key e) (js "Enter") && negb (shiftKey e)).
    + destruct (persist_sendMessage_cases now stamp (ui sys)) as [(_ & R) | (_ & T & I')].
      * rewrite R. left. now split.
      * rewrite (persist_sendMessage_accepted now stamp _ T I').
        right. cbn [dispatched option_map pending ui]. rewrite P. eexists. now split.
    + left. now split.
  - unfold sendButton_click.
    destruct (persist_sendMessage_cases now stamp (ui sys)) as [(D & R) | (D & T & I')];
      rewrite D.
    + destruct Inv as [(P & I) | (c & P & I)]; [left | right; exists c]; now split.
    + destruct Inv as [(P & I) | (c & P & I)]; [|congruence].
      rewrite (persist_sendMessage_accepted now stamp _ T I').
      right. cbn [dispatched option_map pending ui]. rewrite P. eexists. now split.
  - unfold AppPersist.testButton_click.
    destruct Inv as [(P & I) | (c & P & I)]; rewrite I.
    + right. cbn. rewrite P. eexists. now split.
    + right. exists c. now split.
  - destruct Inv as [(P & I) | (c & P & I)]; [left | right; exists c]; now split.
  - destruct Inv as [(P & I) | (c & P & I)]; [left | right; exists c];
      (split; [exact P|]); unfold AppPersist.toggleConfigPanel;
      destruct (AppPersist.showConfig (ui sys)); exact I.
  - destruct (AppPersist.showConfig (ui sys)); [|exact Inv].
    destruct Inv as [(P & I) | (c & P & I)]; [left | right; exists c]; now split.
  - destruct (AppPersist.showConfig (ui sys)); [|exact Inv].
    destruct Inv as [(P & I) | (c & P & I)]; [left | right; exists c];
      (split; [exact P|]); unfold AppPersist.saveConfig; destruct setItem_ok; exact I.
  - destruct (AppPersist.showConfig (ui sys)); [|exact Inv].
    destruct Inv as [(P & I) | (c & P & I)]; [left | right; exists c]; now split.
  - destruct (AppPersist.showConfig (ui sys)); [|exact Inv].
    destruct Inv as [(P & I) | (c & P & I)]; [left | right; exists c]; now split.
  - destruct Inv as [(P & I) | (c & P & I)]; rewrite P.
    + destruct i; cbn [nth_error]; left; now split.
    + destruct i as [|i]; cbn [nth_error].
      * left. split; [reflexivity|]. apply settle_clears_isLoading.
      * destruct i; cbn [nth_error]; right; exists c; now split.
Qed.

Lemma run_keeps_one_call (events : list Event) (sys : System) :
  one_call_at_most sys -> one_call_at_most (run events sys).
Proof.
  revert sys. induction events as [|e events IH]; intros sys Inv; [exact Inv|].
  apply IH. now apply step_keeps_one_call.
Qed.

End SessionFacts.

(** X4: whatever the user and the relay do, in any order, from the moment
    the screen is mounted, at most one call is waiting for the relay, and
    [isLoading] is set exactly while one is: the flag is never left set with
    nothing to clear it, and never cleared while a call is out. *)
Theorem session_has_one_call_at_most
  (events : list Session.Event) (saved : option LMStudioConfig) :
  let sys := Session.run events (Session.start saved) in
  (List.length (Session.pending sys) <= 1)%nat
  /\ (AppPersist.isLoading (Session.ui sys) = true <-> Session.pending sys <> []).
Proof.
  intros sys.
  assert (Inv : one_call_at_most sys).
  { apply run_keeps_one_call. left. now split. }
  destruct Inv as [(P & I) | (c & P & I)]; rewrite P, I; cbn [List.length].
  - split; [lia|]. split; [discriminate | congruence].
  - split; [lia|]. split; [discriminate | reflexivity].
Qed.

Section SessionTranscript.

Import Session.

Lemma step_appends_or_clears (sys : System) (e : Event) :
  exists suffix,
    AppPersist.messages (ui (step sys e)) =
    (if is_clear e then [] else AppPersist.messages (ui sys)) ++ suffix
    /\ (List.length suffix <= 1)%nat.
Proof.
  assert (Same : forall m : list Message, exists suffix,
             m = m ++ suffix /\ (List.length suffix <= 1)%nat).
  { intros m. exists []. split; [now rewrite app_nil_r | simpl; lia]. }
  assert (Sent : forall now stamp, exists suffix,
             AppPersist.messages (snd (AppPersist.sendMessage now stamp (ui sys))) =
             AppPersist.messages (ui sys) ++ suffix /\ (List.length suffix <= 1)%nat).
  { intros now stamp.
    destruct (persist_sendMessage_cases now stamp (ui sys)) as [(_ & R) | (_ & T & I)].
    - rewrite R. apply Same.
    - rewrite (persist_sendMessage_accepted now stamp _ T I). eexists.
      split; [reflexivity | simpl; lia]. }
  destruct e; cbn [step is_clear].
  - destruct (AppPersist.isLoading (ui sys)); apply Same.
  - destruct (AppPersist.isLoading (ui sys)); [apply Same|].
    unfold handleKeyPress. destruct (eqb (key e) (js "Enter") && negb (shiftKey e)).
    + specialize (Sent now stamp).
      destruct (AppPersist.sendMessage now stamp (ui sys)). exact Sent.
    + apply Same.
  - unfold sendButton_click. destruct (sendButton_disabled (ui sys)); [apply Same|].
    specialize (Sent now stamp).
    destruct (AppPersist.sendMessage now stamp (ui sys)). exact Sent.
  - unfold AppPersist.testButton_click.
    destruct (AppPersist.isLoading (ui sys)); apply Same.
  - exists []. split; [reflexivity | simpl; lia].
  - unfold AppPersist.toggleConfigPanel.
    destruct (AppPersist.showConfig (ui sys)); apply Same.
  - destruct (AppPersist.showConfig (ui sys)); apply Same.
  - destruct (AppPersist.showConfig (ui sys)); [|apply Same].
    unfold AppPersist.saveConfig. destruct setItem_ok.
    + eexists. split; [reflexivity | simpl; lia].
    + apply Same.
  - destruct (AppPersist.showConfig (ui sys)); [|apply Same].
    eexists. split; [reflexivity | simpl; lia].
  - destruct (AppPersist.showConfig (ui sys)); apply Same.
  - destruct (nth_error (pending sys) i) as [c|]; [|apply Same].
    destruct (settle_clears_isLoading c o now stamp (ui sys)) as (_ & _ & entry & M & _).
    exists [entry]. split; [exact M | simpl; lia].
Qed.

Lemma run_adds_one_per_event_at_most (events : list Event) (sys : System) :
  exists suffix,
    AppPersist.messages (ui (run events sys)) =
    (if existsb is_clear events then [] else AppPersist.messages (ui sys)) ++ suffix
    /\ (List.length suffix <= List.length events)%nat.
Proof.
  revert sys. induction events as [|e events IH]; intros sys.
  - exists []. split; [now rewrite app_nil_r | simpl; lia].
  - cbn [run fold_left existsb]. fold (run events (step sys e)).
    destruct (IH (step sys e)) as (later & E & L).
    destruct (step_appends_or_clears sys e) as (first & E1 & L1).
    destruct (existsb is_clear events).
    + exists later. rewrite orb_true_r. split; [exact E | simpl; lia].
    + rewrite orb_false_r. exists (first ++ later). rewrite E, E1.
      split; [now rewrite app_assoc | rewrite length_app; simpl; lia].
Qed.

(** Two calls whose handlers will append the same entry: the same handler,
    closed over the same configuration. *)
Definition same_call (c1 c2 : Call) : Prop :=
  match c1, c2 with
  | SendCall f1, SendCall f2 | TestCall f1, TestCall f2 =>
    AppPersist.config (AppPersist.closure f1) = AppPersist.config (AppPersist.closure f2)
  | _, _ => False
  end.

(** Two systems that differ in their transcripts only, the first holding
    [base] in front of what the second holds. *)
Definition ahead_by (base : list Message) (sys1 sys2 : System) : Prop :=
  snd (AppPersist.clearChat (ui sys1)) = snd (AppPersist.clearChat (ui sys2))
  /\ Forall2 same_call (pending sys1) (pending sys2)
  /\ AppPersist.messages (ui sys1) = base ++ AppPersist.messages (ui sys2).

Lemma same_call_same_entry (c1 c2 : Call) (o : Outcome) (now stamp : Z)
  (st1 st2 : AppPersist.State) :
  same_call c1 c2 ->
  exists entry,
    snd (settle c1 o now stamp st1) =
      snd (AppPersist.setIsLoading false
             (snd (AppPersist.setMessages (fun prev => prev ++ [entry]) st1)))
    /\ snd (settle c2 o now stamp st2) =
      snd (AppPersist.setIsLoading false
             (snd (AppPersist.setMessages (fun prev => prev ++ [entry]) st2))).
Proof.
  destruct c1 as [f1|f1], c2 as [f2|f2]; cbn [same_call]; intros C; try contradiction;
    cbn [settle].
  - unfold AppPersist.sendMessage_settled. rewrite C.
    destruct (response <?- awaited o ;; reply_content response);
      eexists; split; reflexivity.
  - unfold AppPersist.testConnection_settled. rewrite C.
    destruct (response <?- awaited o ;; checked_data response);
      eexists; split; reflexivity.
Qed.

Lemma without_same_calls (i : nat) (l1 l2 : list Call) :
  Forall2 same_call l1 l2 -> Forall2 same_call (without i l1) (without i l2).
Proof.
  intros H. unfold without. apply Forall2_app.
  - revert i. induction H; intros [|i]; cbn; constructor; auto.
  - generalize (S i). intros k. revert k.
    induction H; intros [|k]; cbn; try constructor; auto.
Qed.

Lemma nth_same_calls (i : nat) (l1 l2 : list Call) :
  Forall2 same_call l1 l2 ->
  (nth_error l1 i = None /\ nth_error l2 i = None)
  \/ (exists c1 c2, nth_error l1 i = Some c1 /\ nth_error l2 i = Some c2 /\ same_call c1 c2).
Proof.
  intros H. revert i. induction H as [|c1 c2 l1 l2 C _ IH]; intros [|i]; cbn.
  - now left.
  - now left.
  - right. now exists c1, c2.
  - apply IH.
Qed.

Lemma step_keeps_ahead (base : list Message) (sys1 sys2 : System) (e : Event) :
  ahead_by base sys1 sys2 ->
  ahead_by (if is_clear e then [] else base) (step sys1 e) (step sys2 e).
Proof.
  intros (F & P & M).
  destruct sys1 as [[m1 i1 l1 c1 s1 t1 g1 a1] p1], sys2 as [[m2 i2 l2 c2 s2 t2 g2 a2] p2].
  cbn in F, P, M. injection F as -> -> -> -> -> -> ->. subst m1.
  assert (Keep : forall q1 q2 m, Forall2 same_call q1 q2 ->
            ahead_by base
              {| ui := {| AppPersist.messages := base ++ m; AppPersist.input := i2;
                          AppPersist.isLoading := l2; AppPersist.config := c2;
                          AppPersist.showConfig := s2; AppPersist.tempConfig := t2;
                          AppPersist.storage := g2; AppPersist.alerts := a2 |};
                 pending := q1 |}
              {| ui := {| AppPersist.messages := m; AppPersist.input := i2;
                          AppPersist.isLoading := l2; AppPersist.config := c2;
                          AppPersist.showConfig := s2; AppPersist.tempConfig := t2;
                          AppPersist.storage := g2; AppPersist.alerts := a2 |};
                 pending := q2 |}).
  { intros q1 q2 m Q. split; [reflexivity|]. split; [exact Q | reflexivity]. }
  destruct e; cbn [step is_clear ui pending].
  - destruct l2; cbn; [now apply Keep|]. split; [reflexivity|]. now split.
  - destruct l2; cbn [AppPersist.isLoading]; [now apply Keep|].
    unfold handleKeyPress.
    destruct (eqb (key e) (js "Enter") && negb (shiftKey e)); [|now apply Keep].
    unfold AppPersist.sendMessage. cbn [AppPersist.input AppPersist.isLoading].
    destruct (trim i2) as [|ch r]; cbn; [now apply Keep|].
    split; [reflexivity|]. split; [|now rewrite <- app_assoc].
    apply Forall2_app; [exact P|]. constructor; [reflexivity | constructor].
  - unfold sendButton_click, sendButton_disabled, AppPersist.sendMessage.
    cbn [AppPersist.input AppPersist.isLoading].
    destruct (trim i2) as [|ch r]; cbn; [now apply Keep|].
    destruct l2; cbn; [now apply Keep|].
    split; [reflexivity|]. split; [|now rewrite <- app_assoc].
    apply Forall2_app; [exact P|]. constructor; [reflexivity | constructor].
  - unfold AppPersist.testButton_click. cbn [AppPersist.isLoading].
    destruct l2; cbn; [now apply Keep|].
    split; [reflexivity|]. split; [|reflexivity].
    apply Forall2_app; [exact P|]. constructor; [reflexivity | constructor].
  - cbn. split; [reflexivity|]. now split.
  - unfold AppPersist.toggleConfigPanel. cbn [AppPersist.showConfig].
    destruct s2; cbn; (split; [reflexivity|]; now split).
  - destruct s2; cbn; [|now apply Keep]. split; [reflexivity|]. now split.
  - destruct s2; cbn [AppPersist.showConfig]; [|now apply Keep].
    unfold AppPersist.saveConfig. destruct setItem_ok; cbn.
    + split; [reflexivity|]. split; [exact P | now rewrite <- app_assoc].
    + split; [reflexivity|]. now split.
  - destruct s2; cbn; [|now apply Keep].
    split; [reflexivity|]. split; [exact P | now rewrite <- app_assoc].
  - destruct s2; cbn; [|now apply Keep]. split; [reflexivity|]. now split.
  - destruct (nth_same_calls i _ _ P) as [(N1 & N2) | (k1 & k2 & N1 & N2 & C)];
      rewrite N1, N2; [now apply Keep|].
    match goal with |- ahead_by _ {| ui := snd (settle _ _ _ _ ?u1) |}
                                  {| ui := snd (settle _ _ _ _ ?u2) |} =>
      destruct (same_call_same_entry k1 k2 o now stamp u1 u2 C) as (entry & -> & ->)
    end.
    cbn. split; [reflexivity|].
    split; [now apply without_same_calls | now rewrite <- app_assoc].
Qed.

End SessionTranscript.

(** X5: the transcript only grows unless it is cleared.  What a run of events
    adds is what the same events leave behind when the transcript has just
    been cleared, at most one entry per event: without a click on the clear
    button among the events the transcript afterwards is the one before,
    entry for entry, followed by what was added; with such a click it is
    what was added and nothing else, so it is the same whatever the
    transcript held before. *)
Theorem transcript_grows_or_is_cleared
  (events : list Session.Event) (sys : Session.System) :
  let added :=
    AppPersist.messages
      (Session.ui (Session.run events (Session.step sys Session.ClickClear))) in
  AppPersist.messages (Session.ui (Session.run events sys)) =
    (if existsb Session.is_clear events then [] else AppPersist.messages (Session.ui sys))
    ++ added
  /\ (List.length added <= List.length events)%nat.
Proof.
  intros added. split.
  - assert (G : forall evs base s1 s2, ahead_by base s1 s2 ->
               AppPersist.messages (Session.ui (Session.run evs s1)) =
               (if existsb Session.is_clear evs then [] else base)
               ++ AppPersist.messages (Session.ui (Session.run evs s2))).
    { induction evs as [|e evs IH]; intros base s1 s2 A.
      - apply A.
      - cbn [Session.run fold_left existsb].
        fold (Session.run evs (Session.step s1 e)) (Session.run evs (Session.step s2 e)).
        rewrite (IH _ _ _ (step_keeps_ahead base s1 s2 e A)).
        destruct (Session.is_clear e); cbn [orb]; [now destruct (existsb _ evs)|].
        reflexivity. }
    apply G. split; [reflexivity|]. split.
    + cbn. induction (Session.pending sys) as [|c l IH]; constructor; [|exact IH].
      destruct c; reflexivity.
    + cbn. now rewrite app_nil_r.
  - destruct (run_adds_one_per_event_at_most events (Session.step sys Session.ClickClear))
      as (suffix & E & L).
    subst added. rewrite E. cbn [Session.step Session.ui Session.with_ui].
    destruct (existsb Session.is_clear events); cbn [app]; exact L.
Qed.

(** ** The active configuration *)

Section Tidy.

Import Session.

Definition filled (c : LMStudioConfig) : Prop := baseUrl c <> [] /\ model c <> [].

Definition trimmed (c : LMStudioConfig) : Prop :=
  trim (baseUrl c) = baseUrl c /\ trim (model c) = model c.

Lemma or_default_filled (t d : jsstring) :
  d <> [] -> AppPersist.or_default t d <> [].
Proof. destruct t; simpl; [tauto | discriminate]. Qed.

Lemma or_default_trimmed (t d : jsstring) :
  trim d = d -> trim (AppPersist.or_default (trim t) d) = AppPersist.or_default (trim t) d.
Proof.
  intros D. destruct (trim t) as [|c r] eqn:E; simpl; [exact D|].
  rewrite <- E. apply trim_idem.
Qed.

Lemma defaults_tidy : filled DEFAULT_CONFIG /\ trimmed DEFAULT_CONFIG.
Proof. split; split; try (vm_compute; discriminate); vm_compute; reflexivity. Qed.

Lemma saved_tidy (setItem_ok : bool) (now stamp : Z) (st : AppPersist.State) :
  filled (AppPersist.config (snd (AppPersist.saveConfig setItem_ok now stamp st)))
  /\ trimmed (AppPersist.config (snd (AppPersist.saveConfig setItem_ok now stamp st))).
Proof.
  destruct defaults_tidy as ((F1 & F2) & (T1 & T2)).
  assert (C : AppPersist.config (snd (AppPersist.saveConfig setItem_ok now stamp st)) =
              {| baseUrl := AppPersist.or_default (trim (baseUrl (AppPersist.tempConfig st)))
                              (baseUrl DEFAULT_CONFIG);
                 model := AppPersist.or_default (trim (model (AppPersist.tempConfig st)))
                            (model DEFAULT_CONFIG) |}).
  { unfold AppPersist.saveConfig. now destruct setItem_ok. }
  rewrite C. unfold filled, trimmed. cbn [baseUrl model].
  split; split;
    [now apply or_default_filled | now apply or_default_filled
     | now apply or_default_trimmed | now apply or_default_trimmed].
Qed.

Lemma step_config (P : LMStudioConfig -> Prop) (sys : System) (e : Event) :
  P DEFAULT_CONFIG ->
  (forall ok now stamp st, P (AppPersist.config (snd (AppPersist.saveConfig ok now stamp st)))) ->
  P (AppPersist.config (ui sys)) -> P (AppPersist.config (ui (step sys e))).
Proof.
  intros PD PS H. destruct e; cbn [step].
  - now destruct (AppPersist.isLoading (ui sys)).
  - destruct (AppPersist.isLoading (ui sys)); [exact H|].
    unfold handleKeyPress. destruct (eqb (key e) (js "Enter") && negb (shiftKey e)); [|exact H].
    destruct (persist_sendMessage_cases now stamp (ui sys)) as [(_ & R) | (_ & T & I)].
    + now rewrite R.
    + now rewrite (persist_sendMessage_accepted now stamp _ T I).
  - unfold sendButton_click.
    destruct (persist_sendMessage_cases now stamp (ui sys)) as [(D & R) | (D & T & I)];
      rewrite D; [exact H|].
    now rewrite (persist_sendMessage_accepted now stamp _ T I).
  - unfold AppPersist.testButton_click. now destruct (AppPersist.isLoading (ui sys)).
  - exact H.
  - unfold AppPersist.toggleConfigPanel. now destruct (AppPersist.showConfig (ui sys)).
  - now destruct (AppPersist.showConfig (ui sys)).
  - destruct (AppPersist.showConfig (ui sys)); [apply PS | exact H].
  - destruct (AppPersist.showConfig (ui sys)); [exact PD | exact H].
  - now destruct (AppPersist.showConfig (ui sys)).
  - destruct (nth_error (pending sys) i) as [c|]; [|exact H].
    destruct (settle_clears_isLoading c o now stamp (ui sys)) as (_ & C & _).
    cbn [ui]. now rewrite C.
Qed.

Lemma run_config (P : LMStudioConfig -> Prop) (events : list Event) (sys : System) :
  P DEFAULT_CONFIG ->
  (forall ok now stamp st, P (AppPersist.config (snd (AppPersist.saveConfig ok now stamp st)))) ->
  P (AppPersist.config (ui sys)) -> P (AppPersist.config (ui (run events sys))).
Proof.
  intros PD PS. revert sys. induction events as [|e events IH]; intros sys H; [exact H|].
  apply IH. now apply step_config.
Qed.

End Tidy.

(** X7: in a session that started without a stored item, opening the
    settings panel and saving at once, without editing, leaves the active
    configuration as it was. *)
Theorem reopen_and_save_changes_nothing
  (events : list Session.Event) (setItem_ok : bool) (now stamp : Z) :
  let sys := Session.run events (Session.start None) in
  AppPersist.showConfig (Session.ui sys) = false ->
  AppPersist.config
    (Session.ui (Session.run [Session.ClickSettings; Session.ClickSave setItem_ok now stamp] sys))
  = AppPersist.config (Session.ui sys).
Proof.
  intros sys Closed.
  assert (F : filled (AppPersist.config (Session.ui sys))).
  { apply run_config; [apply defaults_tidy | intros; apply saved_tidy | apply defaults_tidy]. }
  assert (T : trimmed (AppPersist.config (Session.ui sys))).
  { apply run_config; [apply defaults_tidy | intros; apply saved_tidy | apply defaults_tidy]. }
  cbn [Session.run fold_left Session.step].
  unfold AppPersist.toggleConfigPanel. rewrite Closed.
  cbn [negb React.bind React.update AppPersist.setTempConfig AppPersist.setShowConfig
       Session.with_ui Session.ui snd AppPersist.showConfig].
  unfold AppPersist.saveConfig.
  destruct F as (F1 & F2), T as (T1 & T2).
  destruct (AppPersist.config (Session.ui sys)) as [b m]. cbn [baseUrl model] in *.
  destruct setItem_ok; cbn; rewrite T1, T2;
    destruct b; destruct m; try contradiction; reflexivity.
Qed.

Lemma reopen_and_save_changes_nothing_witness :
  let sys := Session.run [Session.Change (js "hi"); Session.ClickTest]
               (Session.start None) in
  AppPersist.showConfig (Session.ui sys) = false
  /\ AppPersist.config
       (Session.ui (Session.run [Session.ClickSettings; Session.ClickSave true 5 5] sys))
     = AppPersist.config (Session.ui sys).
Proof.
  split; [reflexivity|].
  apply (reopen_and_save_changes_nothing [Session.Change (js "hi"); Session.ClickTest] true 5 5).
  reflexivity.
Defined.

(** ** The stored configuration *)

Section StoredConfiguration.

Lemma load_written (c : LMStudioConfig) :
  Startup.load (Startup.Parsed (Startup.written c))
  = Startup.loaded_of (AppPersist.initial_config (Some c)).
Proof.
  unfold Startup.load, Startup.written.
  replace (Js.get (JObj [(js "baseUrl", JStr (baseUrl c)); (js "model", JStr (model c))])
             (Js.Named (js "baseUrl"))) with (Normal (JStr (baseUrl c))) by reflexivity.
  replace (Js.get (JObj [(js "baseUrl", JStr (baseUrl c)); (js "model", JStr (model c))])
             (Js.Named (js "model"))) with (Normal (JStr (model c))) by reflexivity.
  cbn [andThen]. unfold Js.or_else, Startup.loaded_of, AppPersist.initial_config.
  destruct (baseUrl c), (model c);
    cbn [Js.truthy AppPersist.or_default baseUrl model]; reflexivity.
Qed.

Lemma or_else_truthy (v d : JsVal) : Js.truthy d = true -> Js.truthy (Js.or_else v d) = true.
Proof. unfold Js.or_else. intros D. now destruct (Js.truthy v) eqn:V. Qed.

End StoredConfiguration.

(** X8: what [saveConfig] stores is what the next start makes active: after
    a save whose write succeeded, the initialiser run on the stored item
    returns the active configuration; after a save whose write failed the
    stored item is the one from before, so the next start does not see the
    change; and after [resetConfig] the next start returns the defaults. *)
Theorem stored_configuration_round_trip
  (now stamp : Z) (st : AppPersist.State) :
  let saved := snd (AppPersist.saveConfig true now stamp st) in
  let unsaved := snd (AppPersist.saveConfig false now stamp st) in
  let reset := snd (AppPersist.resetConfig now stamp st) in
  Startup.load (Startup.item_of (AppPersist.storage saved))
    = Startup.loaded_of (AppPersist.config saved)
  /\ AppPersist.config (AppPersist.initial (AppPersist.storage saved))
     = AppPersist.config saved
  /\ AppPersist.storage unsaved = AppPersist.storage st
  /\ Startup.load (Startup.item_of (AppPersist.storage reset)) = Startup.defaults
  /\ AppPersist.config (AppPersist.initial (AppPersist.storage reset)) = DEFAULT_CONFIG.
Proof.
  intros saved unsaved reset.
  destruct (saved_tidy true now stamp st) as ((F1 & F2) & _). fold saved in F1, F2.
  assert (S : AppPersist.storage saved = Some (AppPersist.config saved)) by reflexivity.
  assert (I : AppPersist.initial_config (Some (AppPersist.config saved))
              = AppPersist.config saved).
  { unfold AppPersist.initial_config.
    destruct (AppPersist.config saved) as [b m]. cbn [baseUrl model] in *.
    destruct b; destruct m; try contradiction; reflexivity. }
  split; [|split; [|split; [|split]]].
  - rewrite S. cbn [Startup.item_of]. now rewrite load_written, I.
  - rewrite S. exact I.
  - reflexivity.
  - reflexivity.
  - reflexivity.
Qed.


(** X6: the active configuration of the screen with saved settings never
    has an empty field.  For every stored item that the initialiser loads to
    two strings, among them an absent item, a text that does not parse and
    every item [saveConfig] wrote, and from every state whose active
    configuration is the loaded one, both fields are non-empty after any
    events; an item that does not load to two strings is a parsed value with
    a truthy field that is no string, which the declared type of the
    configuration leaves out.  When no item was stored, both fields are also
    free of white space at either end throughout. *)
Theorem active_configuration_is_filled
  (events : list Session.Event) (item : Startup.Stored) (c : LMStudioConfig)
  (sys0 : Session.System) :
  Startup.as_config (Startup.load item) = Some c ->
  AppPersist.config (Session.ui sys0) = c ->
  let after := AppPersist.config (Session.ui (Session.run events sys0)) in
  let d := AppPersist.config (Session.ui (Session.run events (Session.start None))) in
  baseUrl after <> [] /\ model after <> []
  /\ trim (baseUrl d) = baseUrl d /\ trim (model d) = model d
  /\ (forall saved : option LMStudioConfig,
        Startup.as_config (Startup.load (Startup.item_of saved))
        = Some (AppPersist.config (Session.ui (Session.start saved))))
  /\ (forall other, Startup.as_config (Startup.load other) = None ->
        exists parsed b m,
          other = Startup.Parsed parsed
          /\ Js.get parsed (Js.Named (js "baseUrl")) = Normal b
          /\ Js.get parsed (Js.Named (js "model")) = Normal m
          /\ ((Js.truthy b = true /\ forall text, b <> JStr text)
              \/ (Js.truthy m = true /\ forall text, m <> JStr text))).
Proof.
  intros L C after d.
  assert (Fc : filled c).
  { assert (T : Js.truthy (Startup.loaded_baseUrl (Startup.load item)) = true
                /\ Js.truthy (Startup.loaded_model (Startup.load item)) = true).
    { destruct item as [| error | parsed]; cbn [Startup.load]; [now split | now split|].
      destruct (Js.get parsed (Js.Named (js "baseUrl"))) as [b | e]; cbn [andThen];
        [|now split].
      destruct (Js.get parsed (Js.Named (js "model"))) as [m | e]; cbn [andThen];
        [|now split].
      cbn [Startup.loaded_baseUrl Startup.loaded_model].
      split; now apply or_else_truthy. }
    destruct T as (T1 & T2). unfold Startup.as_config in L.
    destruct (Startup.loaded_baseUrl (Startup.load item)) as [| | | |b| |]; try discriminate.
    destruct (Startup.loaded_model (Startup.load item)) as [| | | |m| |]; try discriminate.
    injection L as <-. split; cbn [baseUrl model]; intros E; subst; discriminate. }
  assert (Fa : filled after).
  { apply run_config; [apply defaults_tidy | intros; apply saved_tidy | now rewrite C]. }
  assert (Td : trimmed d).
  { apply run_config; [apply defaults_tidy | intros; apply saved_tidy | apply defaults_tidy]. }
  destruct Fa as (F1 & F2), Td as (T1 & T2).
  split; [exact F1|]. split; [exact F2|]. split; [exact T1|]. split; [exact T2|]. split.
  - intros [s|]; [|reflexivity].
    cbn [Startup.item_of]. rewrite load_written. reflexivity.
  - intros other N. destruct other as [| error | parsed]; [discriminate N | discriminate N|].
    cbn [Startup.load] in N. exists parsed.
    destruct (Js.get parsed (Js.Named (js "baseUrl"))) as [b | e]; cbn [andThen] in N;
      [|discriminate N].
    destruct (Js.get parsed (Js.Named (js "model"))) as [m | e]; cbn [andThen] in N;
      [|discriminate N].
    exists b, m. split; [reflexivity|]. split; [reflexivity|]. split; [reflexivity|].
    unfold Startup.as_config, Js.or_else in N.
    cbn [Startup.loaded_baseUrl Startup.loaded_model] in N.
    destruct (Js.truthy b) eqn:Tb, (Js.truthy m) eqn:Tm;
      destruct b, m; cbn [baseUrl model DEFAULT_CONFIG] in N; try discriminate N;
      first [ left; split; [reflexivity | discriminate]
            | right; split; [reflexivity | discriminate] ].
Qed.

Lemma active_configuration_is_filled_witness :
  let item := Startup.Parsed (JObj [(js "baseUrl", JStr (js " http://x "));
                                    (js "model", JStr [])]) in
  let c := {| baseUrl := js " http://x "; model := js "local-model" |} in
  let sys0 := {| Session.ui := Samples.persist [] false c c [];
                 Session.pending := [] |} in
  let events := [Session.ClickSettings; Session.ChangeBaseUrl (js "   ");
                 Session.ClickSave true 1 1] in
  (Startup.as_config (Startup.load item) = Some c
   /\ AppPersist.config (Session.ui sys0) = c)
  /\ baseUrl (AppPersist.config (Session.ui (Session.run events sys0))) <> []
  /\ model (AppPersist.config (Session.ui (Session.run events sys0))) <> [].
Proof.
  split; [split; vm_compute; reflexivity|].
  destruct (active_configuration_is_filled
              [Session.ClickSettings; Session.ChangeBaseUrl (js "   ");
               Session.ClickSave true 1 1]
              (Startup.Parsed (JObj [(js "baseUrl", JStr (js " http://x "));
                                     (js "model", JStr [])]))
              {| baseUrl := js " http://x "; model := js "local-model" |}
              {| Session.ui :=
                   Samples.persist [] false
                     {| baseUrl := js " http://x "; model := js "local-model" |}
                     {| baseUrl := js " http://x "; model := js "local-model" |} [];
                 Session.pending := [] |})
    as (F1 & F2 & _); [vm_compute; reflexivity | reflexivity |].
  split; assumption.
Defined.

(** ** Reading the reply *)

Section ReplyFacts.

Lemma get_throws_an_error (v : JsVal) (k : Js.PropKey) (e : Thrown) :
  Js.get v k = Throw e -> exists message, e = ErrorObj message.
Proof.
  destruct v as [| | b | q | s | items | fields]; cbn [Js.get]; intros H;
    try (injection H as <-; eexists; reflexivity); try discriminate.
  - destruct k as [n|i]; [destruct (eqb n (js "length"))|]; discriminate.
  - destruct k as [n|i]; [destruct (eqb n (js "length"))|]; discriminate.
Qed.

Lemma get_of_value (v : JsVal) (k : Js.PropKey) :
  Js.nullish v = false -> exists r, Js.get v k = Normal r.
Proof.
  destruct v as [| | b | q | s | items | fields]; cbn [Js.nullish Js.get]; intros H;
    try discriminate; try (eexists; reflexivity).
  - destruct k as [n|i]; [destruct (eqb n (js "length"))|]; eexists; reflexivity.
  - destruct k as [n|i]; [destruct (eqb n (js "length"))|]; eexists; reflexivity.
Qed.

Lemma get_opt_returns (v : JsVal) (k : Js.PropKey) :
  exists r, Js.get_opt v k = Normal r.
Proof.
  unfold Js.get_opt. destruct (Js.nullish v) eqn:N; [eexists; reflexivity|].
  now apply get_of_value.
Qed.

Lemma truthy_is_a_value (v : JsVal) : Js.truthy v = true -> Js.nullish v = false.
Proof. now destruct v. Qed.

Definition placeholder : JsVal := JStr (js "エラー: レスポンスが空です").

(** The [try] block on an answer of the relay with a truthy [data]. *)
Lemma reply_content_of_data (data : JsVal) :
  Js.truthy data = true ->
  reply_content (json_result data) =
  (choices <?- Js.get data (Js.Named (js "choices")) ;;
   first <?- Js.get choices (Js.Index 0) ;;
   message <?- Js.get_opt first (Js.Named (js "message")) ;;
   text <?- Js.get_opt message (Js.Named (js "content")) ;;
   Normal (Js.or_else text placeholder)).
Proof.
  intros T. unfold reply_content.
  rewrite type_of_json_result, data_of_json_result. cbn [andThen].
  replace (Js.strict_eq_str (JStr (js "json")) (js "json")) with true by reflexivity.
  now rewrite T.
Qed.

Lemma reply_content_throws_an_error (response : JsVal) (e : Thrown) :
  reply_content response = Throw e -> exists message, e = ErrorObj message.
Proof.
  unfold reply_content.
  destruct (Js.get response (Js.Named (js "type"))) as [ty|e0] eqn:G1; cbn [andThen];
    [|intros H; injection H as <-; exact (get_throws_an_error _ _ _ G1)].
  destruct (Js.strict_eq_str ty (js "json"));
    [|intros H; injection H as <-; eexists; reflexivity].
  destruct (Js.get response (Js.Named (js "data"))) as [data|e0] eqn:G2; cbn [andThen];
    [|intros H; injection H as <-; exact (get_throws_an_error _ _ _ G2)].
  destruct (Js.truthy data); [|intros H; injection H as <-; eexists; reflexivity].
  destruct (Js.get data (Js.Named (js "choices"))) as [choices|e0] eqn:G3; cbn [andThen];
    [|intros H; injection H as <-; exact (get_throws_an_error _ _ _ G3)].
  destruct (Js.get choices (Js.Index 0)) as [first|e0] eqn:G4; cbn [andThen];
    [|intros H; injection H as <-; exact (get_throws_an_error _ _ _ G4)].
  destruct (get_opt_returns first (Js.Named (js "message"))) as (message & ->).
  cbn [andThen].
  destruct (get_opt_returns message (Js.Named (js "content"))) as (text & ->).
  cbn [andThen]. discriminate.
Qed.

End ReplyFacts.

(** X10: the text of a reply entry is never falsy, so never the empty
    string; and when the answer has a truthy [data] whose [choices] is
    neither [undefined] nor [null], [sendMessage] is on its success path
    whatever else is missing: an empty [choices], a first choice without
    [message], a message without [content] and an empty [content] all give
    the placeholder text. *)
Theorem reply_is_never_blank (data : JsVal) :
  (forall response text, reply_content response = Normal text -> Js.truthy text = true)
  /\ (forall choices,
        Js.truthy data = true ->
        Js.get data (Js.Named (js "choices")) = Normal choices ->
        Js.nullish choices = false ->
        exists text, reply_content (json_result data) = Normal text)
  /\ reply_content (json_result (JObj [(js "choices", JArr [])])) = Normal placeholder
  /\ reply_content (json_result (JObj [(js "choices", JArr [JObj []])])) = Normal placeholder
  /\ reply_content
       (json_result (JObj [(js "choices", JArr [JObj [(js "message", JObj [])]])]))
     = Normal placeholder
  /\ reply_content
       (json_result
          (JObj [(js "choices",
                  JArr [JObj [(js "message", JObj [(js "content", JStr [])])]])]))
     = Normal placeholder.
Proof.
  split; [|split].
  - intros response text. unfold reply_content.
    destruct (Js.get response (Js.Named (js "type"))) as [ty|e0]; cbn [andThen];
      [|discriminate].
    destruct (Js.strict_eq_str ty (js "json")); [|discriminate].
    destruct (Js.get response (Js.Named (js "data"))) as [d|e0]; cbn [andThen];
      [|discriminate].
    destruct (Js.truthy d); [|discriminate].
    destruct (Js.get d (Js.Named (js "choices"))) as [choices|e0]; cbn [andThen];
      [|discriminate].
    destruct (Js.get choices (Js.Index 0)) as [first|e0]; cbn [andThen]; [|discriminate].
    destruct (Js.get_opt first (Js.Named (js "message"))) as [message|e0]; cbn [andThen];
      [|discriminate].
    destruct (Js.get_opt message (Js.Named (js "content"))) as [t|e0]; cbn [andThen];
      [|discriminate].
    intros H. injection H as <-. now apply or_else_truthy.
  - intros choices T G N. rewrite (reply_content_of_data data T), G. cbn [andThen].
    destruct (get_of_value choices (Js.Index 0) N) as (first & ->). cbn [andThen].
    destruct (get_opt_returns first (Js.Named (js "message"))) as (message & ->).
    cbn [andThen].
    destruct (get_opt_returns message (Js.Named (js "content"))) as (text & ->).
    cbn [andThen]. eexists. reflexivity.
  - repeat split.
Qed.

(** X11: when the answer has a truthy [data] whose [choices] is missing or
    [null], reading its first element throws, and [sendMessage] ends on its
    error path: the entry it appends carries the message of that
    [TypeError], not the text for an invalid response. *)
Theorem missing_choices_is_a_type_error
  (data choices : JsVal) (now stamp now' stamp' : Z) (p : AppPersist.State) :
  Js.truthy data = true ->
  Js.get data (Js.Named (js "choices")) = Normal choices ->
  Js.nullish choices = true ->
  trim (AppPersist.input p) <> [] -> AppPersist.isLoading p = false ->
  reply_content (json_result data) = Throw (Js.cannot_read choices (Js.Index 0))
  /\ exists p2 rest,
       AppPersist.send (fun _ => Resolved (json_result data)) now stamp now' stamp' p = Some p2
       /\ AppPersist.messages p2 =
          AppPersist.messages p ++
          [user_entry now stamp (AppPersist.input p);
           {| id := toString (now' + 1); role := assistant;
              content :=
                JStr (js "エラーが発生しました: Cannot read properties of "
                      ++ (match choices with JNull => js "null" | _ => js "undefined" end)
                      ++ js " (reading '0')" ++ rest);
              timestamp := stamp' |}].
Proof.
  intros T G N Tp Ip.
  assert (R : reply_content (json_result data) = Throw (Js.cannot_read choices (Js.Index 0))).
  { rewrite (reply_content_of_data data T), G. cbn [andThen].
    destruct choices; try discriminate; reflexivity. }
  split; [exact R|].
  assert (E : forall subject rest : jsstring,
             js "エラーが発生しました: "
             ++ (js "Cannot read properties of " ++ subject
                 ++ js " (reading '" ++ Js.key_text (Js.Index 0) ++ js "')") ++ rest
             = js "エラーが発生しました: Cannot read properties of "
               ++ subject ++ js " (reading '0')" ++ rest).
  { intros subject rest.
    replace (js "エラーが発生しました: Cannot read properties of ")
      with (js "エラーが発生しました: " ++ js "Cannot read properties of ")
      by (vm_compute; reflexivity).
    replace (js " (reading '0')")
      with (js " (reading '" ++ Js.key_text (Js.Index 0) ++ js "')")
      by (vm_compute; reflexivity).
    now rewrite <- !app_assoc. }
  unfold AppPersist.send. rewrite (persist_sendMessage_accepted now stamp p Tp Ip).
  eexists.
  exists (nl ++ nl ++ js "設定を確認してください：" ++ nl
          ++ js "・API URL: " ++ baseUrl (AppPersist.config p) ++ nl
          ++ js "・モデル名: " ++ model (AppPersist.config p)).
  split; [reflexivity|].
  rewrite (persist_settled_error now' stamp' _ _ _ (Js.cannot_read choices (Js.Index 0)))
    by exact R.
  cbn [AppPersist.messages error_text Js.cannot_read AppPersist.closure].
  rewrite <- (app_assoc (AppPersist.messages p)). cbn [app]. now rewrite E.
Qed.

Lemma missing_choices_is_a_type_error_witness :
  let p := Samples.persist (js "hello") false DEFAULT_CONFIG DEFAULT_CONFIG [] in
  let data := JObj [(js "error", JStr (js "model not loaded"))] in
  (Js.truthy data = true
   /\ Js.get data (Js.Named (js "choices")) = Normal JUndefined
   /\ Js.nullish JUndefined = true
   /\ trim (AppPersist.input p) <> [] /\ AppPersist.isLoading p = false)
  /\ reply_content (json_result data) = Throw (Js.cannot_read JUndefined (Js.Index 0))
  /\ exists p2 rest,
       AppPersist.send (fun _ => Resolved (json_result data)) 1 1 2 2 p = Some p2
       /\ AppPersist.messages p2 =
          AppPersist.messages p ++
          [user_entry 1 1 (AppPersist.input p);
           {| id := toString (2 + 1); role := assistant;
              content :=
                JStr (js "エラーが発生しました: Cannot read properties of "
                      ++ js "undefined" ++ js " (reading '0')" ++ rest);
              timestamp := 2 |}].
Proof.
  split.
  - repeat split; try reflexivity; vm_compute; discriminate.
  - apply (missing_choices_is_a_type_error
             (JObj [(js "error", JStr (js "model not loaded"))]) JUndefined 1 1 2 2);
      try reflexivity; vm_compute; discriminate.
Defined.

(** ** The relay behind the bridge *)

Section BehindTheBridge.

Variable fetch : jsstring -> Relay.FetchInit -> Completion Relay.Response.
Variable describe : Thrown -> jsstring.

Definition wired : Request -> Outcome :=
  Bridge.callLMStudioAPI (Relay.call_lm_studio_api fetch) describe.

Lemma wired_resolved (d : Request) (r : JsVal) :
  wired d = Resolved r -> exists data, r = json_result data.
Proof.
  unfold wired, Bridge.callLMStudioAPI, Relay.call_lm_studio_api.
  destruct (fetch (endpoint d) (Relay.fetch_init d)) as [response|e]; cbn [andThen];
    [|discriminate].
  destruct (negb (Relay.ok response)); [discriminate|].
  destruct (Relay.json response) as [data|e]; cbn [andThen]; [|discriminate].
  intros H. injection H as <-. now exists data.
Qed.

Lemma wired_rejected (d : Request) (e : Thrown) :
  wired d = Rejected e -> exists message, e = ErrorObj message.
Proof.
  unfold wired, Bridge.callLMStudioAPI.
  destruct (Relay.call_lm_studio_api fetch d); [discriminate|].
  intros H. injection H as <-. eexists. reflexivity.
Qed.

End BehindTheBridge.

(** X12: with the relay of [part_001] behind the bridge of [preload.ts],
    every answer that reaches the screen carries the tag [json], so the
    screen takes it for a valid response exactly when its [data] is truthy;
    and everything thrown after the call, by the bridge or while reading the
    answer, is an [Error] with a message, so the text kept for errors of an
    unknown kind never appears in the transcript. *)
Theorem wired_relay_answers_are_tagged
  (fetch : jsstring -> Relay.FetchInit -> Completion Relay.Response)
  (describe : Thrown -> jsstring) (d : Request) :
  (forall r, wired fetch describe d = Resolved r ->
     exists data, r = json_result data
       /\ (Js.truthy data = true -> checked_data r = Normal data)
       /\ (Js.truthy data = false ->
           checked_data r = Throw (ErrorObj (js "無効なレスポンス"))
           /\ reply_content r = Throw (ErrorObj (js "無効なレスポンス形式"))))
  /\ (forall e,
        (response <?- awaited (wired fetch describe d) ;; reply_content response) = Throw e
        \/ (response <?- awaited (wired fetch describe d) ;; checked_data response) = Throw e ->
        exists message, e = ErrorObj message /\ error_text e = message).
Proof.
  split.
  - intros r H. destruct (wired_resolved _ _ _ _ H) as (data & ->). exists data.
    split; [reflexivity|]. split.
    + intros T. unfold checked_data.
      rewrite type_of_json_result, data_of_json_result. cbn [andThen].
      replace (Js.strict_eq_str (JStr (js "json")) (js "json")) with true by reflexivity.
      now rewrite T.
    + intros F. split; [now apply checked_data_falsy | now apply reply_content_falsy].
  - intros e H.
    assert (K : exists message, e = ErrorObj message).
    { destruct (wired fetch describe d) as [r|e0] eqn:W; cbn [awaited andThen] in H.
      - destruct H as [H|H]; [exact (reply_content_throws_an_error _ _ H)|].
        destruct (wired_resolved _ _ _ _ W) as (data & ->).
        destruct (Js.truthy data) eqn:T.
        + unfold checked_data in H.
          rewrite type_of_json_result, data_of_json_result in H. cbn [andThen] in H.
          replace (Js.strict_eq_str (JStr (js "json")) (js "json")) with true in H
            by reflexivity.
          rewrite T in H. discriminate.
        + rewrite (checked_data_falsy data T) in H. injection H as <-.
          eexists. reflexivity.
      - assert (E : e = e0) by (destruct H as [H|H]; now injection H).
        subst e0. exact (wired_rejected _ _ _ _ W). }
    destruct K as (message & ->). now exists message.
Qed.

(** X13: a status outside 200-299 reaches the user: when the server answers
    every request with such a status, [sendMessage] ends with an error entry
    whose text quotes, as the bridge printed it, the error the relay made
    for that status, and [isLoading] is cleared. *)
Theorem failed_status_reaches_the_transcript
  (fetch : jsstring -> Relay.FetchInit -> Completion Relay.Response)
  (describe : Thrown -> jsstring) (response : Relay.Response)
  (now stamp now' stamp' : Z) (p : AppPersist.State) :
  (forall url init, fetch url init = Normal response) ->
  Relay.ok response = false ->
  trim (AppPersist.input p) <> [] -> AppPersist.isLoading p = false ->
  exists p2 text,
    AppPersist.send (wired fetch describe) now stamp now' stamp' p = Some p2
    /\ AppPersist.messages p2 =
       AppPersist.messages p ++
       [user_entry now stamp (AppPersist.input p);
        {| id := toString (now' + 1); role := assistant;
           content := JStr text; timestamp := stamp' |}]
    /\ occurs_in
         (describe (ErrorObj (js "HTTP error! status: "
                              ++ toString (Relay.status response)))) text
    /\ AppPersist.isLoading p2 = false.
Proof.
  intros F K Tp Ip.
  unfold AppPersist.send. rewrite (persist_sendMessage_accepted now stamp p Tp Ip).
  cbn [AppPersist.request].
  set (quoted := describe (ErrorObj (js "HTTP error! status: "
                                     ++ toString (Relay.status response)))).
  set (err := ErrorObj (js "Error invoking remote method 'call-lm-studio-api': " ++ quoted)).
  assert (W : forall d, wired fetch describe d = Rejected err).
  { intros d. unfold wired, Bridge.callLMStudioAPI, Relay.call_lm_studio_api.
    rewrite F. cbn [andThen]. now rewrite K. }
  rewrite W. do 2 eexists. split; [reflexivity|]. split; [|split].
  - rewrite (persist_settled_error now' stamp' _ _ _ err) by reflexivity.
    cbn [AppPersist.messages AppPersist.closure]. rewrite <- app_assoc. reflexivity.
  - subst err. cbn [error_text].
    occurs_here
      (js "エラーが発生しました: "
       ++ js "Error invoking remote method 'call-lm-studio-api': ")
      (nl ++ nl ++ js "設定を確認してください：" ++ nl
       ++ js "・API URL: " ++ baseUrl (AppPersist.config p) ++ nl
       ++ js "・モデル名: " ++ model (AppPersist.config p)).
  - match goal with |- context [AppPersist.sendMessage_settled _ _ ?fl ?o ?st] =>
      destruct (persist_settled_appends_one now' stamp' fl o st) as (reply & S & _)
    end.
    now rewrite S.
Qed.

Lemma failed_status_reaches_the_transcript_witness :
  let p := Samples.persist (js "hello") false DEFAULT_CONFIG DEFAULT_CONFIG [] in
  let fetch := Samples.fetch_status 503 JNull in
  let describe := fun error => js "Error: " ++ error_text error in
  let response := {| Relay.status := 503; Relay.json := Normal JNull |} in
  ((forall url init, fetch url init = Normal response)
   /\ Relay.ok response = false
   /\ trim (AppPersist.input p) <> [] /\ AppPersist.isLoading p = false)
  /\ exists p2 text,
       AppPersist.send (wired fetch describe) 1 1 2 2 p = Some p2
       /\ AppPersist.messages p2 =
          AppPersist.messages p ++
          [user_entry 1 1 (AppPersist.input p);
           {| id := toString (2 + 1); role := assistant;
              content := JStr text; timestamp := 2 |}]
       /\ occurs_in
            (describe (ErrorObj (js "HTTP error! status: "
                                 ++ toString (Relay.status response)))) text
       /\ AppPersist.isLoading p2 = false.
Proof.
  split.
  - repeat split; try reflexivity; vm_compute; discriminate.
  - apply (failed_status_reaches_the_transcript
             (Samples.fetch_status 503 JNull)
             (fun error => js "Error: " ++ error_text error)
             {| Relay.status := 503; Relay.json := Normal JNull |} 1 1 2 2);
      try reflexivity; vm_compute; discriminate.
Defined.

(** ** While a call is out *)

(** X14: the error entry of [sendMessage] reports the configuration the
    request was sent with: whatever the state has become when the call is
    rejected, also after another configuration was saved in between, the
    entry names the base URL and the model that were active at dispatch. *)
Theorem error_entry_reports_configuration_at_dispatch
  (now stamp now' stamp' : Z) (p p1 later : AppPersist.State)
  (fl : AppPersist.InFlight) (error : Thrown) :
  AppPersist.sendMessage now stamp p = (Some fl, p1) ->
  exists text,
    AppPersist.messages
      (snd (AppPersist.sendMessage_settled now' stamp' fl (Rejected error) later))
    = AppPersist.messages later ++
      [{| id := toString (now' + 1); role := assistant;
          content := JStr text; timestamp := stamp' |}]
    /\ occurs_in (baseUrl (AppPersist.config p)) text
    /\ occurs_in (model (AppPersist.config p)) text
    /\ AppPersist.config
         (snd (AppPersist.sendMessage_settled now' stamp' fl (Rejected error) later))
       = AppPersist.config later.
Proof.
  intros H. destruct (persist_dispatch_passed_guard _ _ _ _ _ H) as (T & I).
  rewrite (persist_sendMessage_accepted now stamp p T I) in H. injection H as <- _.
  eexists. split; [|split; [|split]].
  - rewrite (persist_settled_error now' stamp' _ _ _ error) by reflexivity.
    cbn [AppPersist.closure]. reflexivity.
  - occurs_here
      (js "エラーが発生しました: " ++ error_text error ++ nl ++ nl
       ++ js "設定を確認してください：" ++ nl ++ js "・API URL: ")
      (nl ++ js "・モデル名: " ++ model (AppPersist.config p)).
  - occurs_here
      (js "エラーが発生しました: " ++ error_text error ++ nl ++ nl
       ++ js "設定を確認してください：" ++ nl ++ js "・API URL: "
       ++ baseUrl (AppPersist.config p) ++ nl ++ js "・モデル名: ")
      (@nil N).
  - match goal with |- context [AppPersist.sendMessage_settled _ _ ?fl ?o ?st] =>
      destruct (persist_settled_appends_one now' stamp' fl o st) as (reply & S & _)
    end.
    now rewrite S.
Qed.

Lemma error_entry_reports_configuration_at_dispatch_witness :
  let p := Samples.persist (js "hello") false DEFAULT_CONFIG DEFAULT_CONFIG [] in
  let p1 := snd (AppPersist.sendMessage 1 1 p) in
  let later := snd (AppPersist.saveConfig true 2 2
                      (snd (AppPersist.baseUrl_onChange (js "http://other:9")
                              (snd (AppPersist.toggleConfigPanel p1))))) in
  let error := ErrorObj (js "fetch failed") in
  exists fl text,
    AppPersist.sendMessage 1 1 p = (Some fl, p1)
    /\ baseUrl (AppPersist.config later) = js "http://other:9"
    /\ AppPersist.messages
         (snd (AppPersist.sendMessage_settled 3 3 fl (Rejected error) later))
       = AppPersist.messages later ++
         [{| id := toString (3 + 1); role := assistant;
             content := JStr text; timestamp := 3 |}]
    /\ occurs_in (js "http://localhost:1234") text
    /\ ~ occurs_in (js "http://other:9") text.
Proof.
  intros p p1 later error. eexists.
  assert (H : AppPersist.sendMessage 1 1 p = (Some _, p1)) by (vm_compute; reflexivity).
  destruct (error_entry_reports_configuration_at_dispatch 1 1 3 3 _ _ later _ error H)
    as (text & M & U & _).
  exists text. split; [exact H|]. split; [vm_compute; reflexivity|].
  split; [exact M|]. split; [exact U|].
  rewrite (persist_settled_error 3 3 _ (Rejected error) later error) in M by reflexivity.
  apply app_inv_head in M. injection M as <-.
  rewrite <- includes_occurs_in. vm_compute. discriminate.
Defined.

(** X15: [clearChat] is not held back while a call is out, and the reply of
    the call is appended to the transcript as it is then: after a clear
    between dispatch and settlement the transcript holds the assistant entry
    alone, without the user entry it answers. *)
Theorem reply_after_clear_stands_alone
  (now stamp now' stamp' : Z) (p p1 : AppPersist.State)
  (fl : AppPersist.InFlight) (o : Outcome) :
  AppPersist.sendMessage now stamp p = (Some fl, p1) ->
  AppPersist.messages p1 = AppPersist.messages p ++ [user_entry now stamp (AppPersist.input p)]
  /\ exists reply,
       AppPersist.messages
         (snd (AppPersist.sendMessage_settled now' stamp' fl o (snd (AppPersist.clearChat p1))))
       = [reply]
       /\ role reply = assistant
       /\ AppPersist.isLoading
            (snd (AppPersist.sendMessage_settled now' stamp' fl o
                    (snd (AppPersist.clearChat p1)))) = false.
Proof.
  intros H. destruct (persist_dispatch_passed_guard _ _ _ _ _ H) as (T & I).
  rewrite (persist_sendMessage_accepted now stamp p T I) in H. injection H as <- <-.
  split; [reflexivity|].
  match goal with |- context [AppPersist.sendMessage_settled _ _ ?fl ?o ?st] =>
    destruct (persist_settled_appends_one now' stamp' fl o st) as (reply & S & R & _)
  end.
  exists reply. rewrite S. repeat split. exact R.
Qed.

Lemma reply_after_clear_stands_alone_witness :
  let p := Samples.persist (js "hello") false DEFAULT_CONFIG DEFAULT_CONFIG
             [Samples.greeting] in
  exists fl p1,
    AppPersist.sendMessage 1 1 p = (Some fl, p1)
    /\ AppPersist.messages p1 = AppPersist.messages p ++ [user_entry 1 1 (AppPersist.input p)]
    /\ exists reply,
         AppPersist.messages
           (snd (AppPersist.sendMessage_settled 2 2 fl
                   (Samples.relay_hi (AppPersist.request fl))
                   (snd (AppPersist.clearChat p1))))
         = [reply]
         /\ role reply = assistant
         /\ AppPersist.isLoading
              (snd (AppPersist.sendMessage_settled 2 2 fl
                      (Samples.relay_hi (AppPersist.request fl))
                      (snd (AppPersist.clearChat p1)))) = false.
Proof.
  do 2 eexists.
  assert (H : AppPersist.sendMessage 1 1
                (Samples.persist (js "hello") false DEFAULT_CONFIG DEFAULT_CONFIG
                   [Samples.greeting])
              = (Some _, _)) by (vm_compute; reflexivity).
  split; [exact H|].
  exact (reply_after_clear_stands_alone 1 1 2 2 _ _ _ _ H).
Defined.

(** ** What a request depends on *)

Definition same_words (m n : Message) : Prop :=
  role m = role n /\ content m = content n.

Lemma same_words_same_pairs (l1 l2 : list Message) :
  Forall2 same_words l1 l2 -> map role_content l1 = map role_content l2.
Proof.
  induction 1 as [|m n l1 l2 (R & C) _ IH]; [reflexivity|].
  cbn [map]. unfold role_content at 1 3. now rewrite R, C, IH.
Qed.

(** X16: the descriptor of [sendMessage] depends on the text of the input,
    the busy flag, the configuration and the roles and contents of the
    transcript, and on nothing else: two states that agree on these dispatch
    the same descriptor, or both none, whatever the identifiers and the time
    stamps of their entries and whatever the clock reads. *)
Theorem request_ignores_ids_and_clock
  (now stamp now2 stamp2 : Z) (p q : AppPersist.State) :
  AppPersist.input p = AppPersist.input q ->
  AppPersist.isLoading p = AppPersist.isLoading q ->
  AppPersist.config p = AppPersist.config q ->
  Forall2 same_words (AppPersist.messages p) (AppPersist.messages q) ->
  option_map AppPersist.request (fst (AppPersist.sendMessage now stamp p))
  = option_map AppPersist.request (fst (AppPersist.sendMessage now2 stamp2 q)).
Proof.
  intros Ei El Ec Em.
  destruct (persist_sendMessage_cases now stamp p) as [(D & R) | (D & T & I)].
  - rewrite R.
    destruct (persist_sendMessage_cases now2 stamp2 q) as [(D' & R') | (D' & _)].
    + now rewrite R'.
    + unfold Session.sendButton_disabled in D, D'. rewrite Ei, El in D. congruence.
  - rewrite (persist_sendMessage_accepted now stamp p T I).
    rewrite Ei in T. rewrite El in I.
    rewrite (persist_sendMessage_accepted now2 stamp2 q T I).
    cbn [fst option_map AppPersist.request]. rewrite Ec, !map_app.
    rewrite (same_words_same_pairs _ _ Em), Ei. reflexivity.
Qed.

Lemma request_ignores_ids_and_clock_witness :
  let elder := {| id := js "7"; role := assistant;
                  content := JStr (js "こんにちは"); timestamp := 7 |} in
  let p := Samples.persist (js "hello") false DEFAULT_CONFIG DEFAULT_CONFIG [Samples.greeting] in
  let q := Samples.persist (js "hello") false DEFAULT_CONFIG DEFAULT_CONFIG [elder] in
  (AppPersist.input p = AppPersist.input q
   /\ AppPersist.isLoading p = AppPersist.isLoading q
   /\ AppPersist.config p = AppPersist.config q
   /\ Forall2 same_words (AppPersist.messages p) (AppPersist.messages q))
  /\ option_map AppPersist.request (fst (AppPersist.sendMessage 1 2 p))
     = option_map AppPersist.request (fst (AppPersist.sendMessage 30 40 q)).
Proof.
  assert (W : Forall2 same_words [Samples.greeting]
                [{| id := js "7"; role := assistant;
                    content := JStr (js "こんにちは"); timestamp := 7 |}]).
  { constructor; [split; reflexivity | constructor]. }
  split.
  - repeat split; try reflexivity. exact W.
  - apply request_ignores_ids_and_clock; try reflexivity. exact W.
Defined.

(** X17: the screen of [src/src/App.tsx] and the screen with saved settings
    behave alike as long as the base URL has no separator at its end and the
    call succeeds: from states that agree on transcript, input, busy flag
    and configuration they dispatch the same descriptor for [sendMessage]
    and for [testConnection], and after an answer that is read without error
    their transcripts are equal. *)
Theorem screens_agree_without_closing_separator
  (relay : Request -> Outcome) (now stamp now' stamp' : Z)
  (a : AppBasic.State) (p : AppPersist.State) :
  AppBasic.messages a = AppPersist.messages p ->
  AppBasic.input a = AppPersist.input p ->
  AppBasic.isLoading a = AppPersist.isLoading p ->
  AppBasic.config a = AppPersist.config p ->
  endsWith (baseUrl (AppPersist.config p)) slash = false ->
  (forall d, exists text, (response <?- awaited (relay d) ;; reply_content response) = Normal text) ->
  option_map AppBasic.request (fst (AppBasic.sendMessage now stamp a))
  = option_map AppPersist.request (fst (AppPersist.sendMessage now stamp p))
  /\ AppBasic.request (fst (AppBasic.testConnection a))
     = AppPersist.request (fst (AppPersist.testConnection p))
  /\ option_map AppBasic.messages (AppBasic.send relay now stamp now' stamp' a)
     = option_map AppPersist.messages (AppPersist.send relay now stamp now' stamp' p).
Proof.
  intros Em Ei El Ec S Ok.
  assert (U : AppPersist.apiUrl (AppPersist.config p)
              = baseUrl (AppPersist.config p) ++ js "/v1/chat/completions").
  { unfold AppPersist.apiUrl. now rewrite S. }
  assert (V : AppPersist.modelsUrl (AppPersist.config p)
              = baseUrl (AppPersist.config p) ++ js "/v1/models").
  { unfold AppPersist.modelsUrl. now rewrite S. }
  split; [|split].
  - destruct (persist_sendMessage_cases now stamp p) as [(D & R) | (D & T & I)].
    + rewrite R.
      destruct (basic_sendMessage_cases now stamp a) as [(D' & R') | (D' & _)].
      * now rewrite R'.
      * unfold Session.sendButton_disabled in D. unfold BasicUi.sendButton_disabled in D'.
        rewrite Ei, El in D'. congruence.
    + rewrite (persist_sendMessage_accepted now stamp p T I).
      rewrite <- Ei in T. rewrite <- El in I.
      rewrite (basic_sendMessage_accepted now stamp a T I).
      cbn [fst option_map AppBasic.request AppPersist.request].
      now rewrite U, Ec, Em, Ei.
  - unfold AppBasic.testConnection, AppPersist.testConnection.
    cbn [React.bind React.ret React.update fst AppBasic.request AppPersist.request
         AppBasic.setIsLoading AppPersist.setIsLoading].
    now rewrite V, Ec.
  - unfold AppBasic.send, AppPersist.send.
    destruct (persist_sendMessage_cases now stamp p) as [(D & R) | (D & T & I)].
    + rewrite R.
      destruct (basic_sendMessage_cases now stamp a) as [(D' & R') | (D' & _)].
      * now rewrite R'.
      * unfold Session.sendButton_disabled in D. unfold BasicUi.sendButton_disabled in D'.
        rewrite Ei, El in D'. congruence.
    + rewrite (persist_sendMessage_accepted now stamp p T I).
      rewrite <- Ei in T. rewrite <- El in I.
      rewrite (basic_sendMessage_accepted now stamp a T I).
      cbn [option_map AppBasic.request AppPersist.request].
      rewrite U, Ec, Em, Ei.
      match goal with |- context [AppPersist.sendMessage_settled _ _ _ (relay ?d) _] =>
        destruct (Ok d) as (text & Ht)
      end.
      unfold AppBasic.sendMessage_settled, AppPersist.sendMessage_settled.
      rewrite Ht. reflexivity.
Qed.

Lemma screens_agree_without_closing_separator_witness :
  let a := Samples.basic (js "hello") false DEFAULT_CONFIG [Samples.greeting] in
  let p := Samples.persist (js "hello") false DEFAULT_CONFIG DEFAULT_CONFIG [Samples.greeting] in
  (AppBasic.messages a = AppPersist.messages p
   /\ AppBasic.input a = AppPersist.input p
   /\ AppBasic.isLoading a = AppPersist.isLoading p
   /\ AppBasic.config a = AppPersist.config p
   /\ endsWith (baseUrl (AppPersist.config p)) slash = false
   /\ (forall d, exists text,
         (response <?- awaited (Samples.relay_hi d) ;; reply_content response) = Normal text))
  /\ option_map AppBasic.request (fst (AppBasic.sendMessage 1 1 a))
     = option_map AppPersist.request (fst (AppPersist.sendMessage 1 1 p))
  /\ AppBasic.request (fst (AppBasic.testConnection a))
     = AppPersist.request (fst (AppPersist.testConnection p))
  /\ option_map AppBasic.messages (AppBasic.send Samples.relay_hi 1 1 2 2 a)
     = option_map AppPersist.messages (AppPersist.send Samples.relay_hi 1 1 2 2 p).
Proof.
  assert (Ok : forall d, exists text,
             (response <?- awaited (Samples.relay_hi d) ;; reply_content response)
             = Normal text).
  { intros d. eexists. vm_compute. reflexivity. }
  split.
  - repeat split; try reflexivity. exact Ok.
  - apply screens_agree_without_closing_separator; try reflexivity. exact Ok.
Defined.

(** ** From the descriptor to [fetch] *)



(** ** Settings in [src/src/App.tsx] *)

(** X19: in [src/src/App.tsx] what is typed into the settings fields is
    active at once and used as typed: the next request of [sendMessage] goes
    to the typed base URL followed by the path and names the typed model,
    with no trimming and no default, so that an emptied base URL field gives
    the bare path as the address. *)
Theorem basic_settings_are_used_as_typed
  (url name : jsstring) (now stamp : Z) (a : AppBasic.State) :
  trim (AppBasic.input a) <> [] -> AppBasic.isLoading a = false ->
  let typed := snd (AppBasic.model_onChange name (snd (AppBasic.baseUrl_onChange url a))) in
  exists fl a',
    AppBasic.sendMessage now stamp typed = (Some fl, a')
    /\ endpoint (AppBasic.request fl) = url ++ js "/v1/chat/completions"
    /\ (exists history,
          body (AppBasic.request fl) = Some (chat_body name history))
    /\ (url = [] -> endpoint (AppBasic.request fl) = js "/v1/chat/completions").
Proof.
  intros T I typed.
  assert (Tt : trim (AppBasic.input typed) <> []) by exact T.
  assert (It : AppBasic.isLoading typed = false) by exact I.
  rewrite (basic_sendMessage_accepted now stamp typed Tt It).
  do 2 eexists. split; [reflexivity|]. split; [reflexivity|].
  split; [eexists; reflexivity|]. intros ->. reflexivity.
Qed.

Lemma basic_settings_are_used_as_typed_witness :
  let a := Samples.basic (js "hello") false DEFAULT_CONFIG [] in
  let typed := snd (AppBasic.model_onChange (js " m ") (snd (AppBasic.baseUrl_onChange [] a))) in
  (trim (AppBasic.input a) <> [] /\ AppBasic.isLoading a = false)
  /\ exists fl a',
       AppBasic.sendMessage 1 1 typed = (Some fl, a')
       /\ endpoint (AppBasic.request fl) = [] ++ js "/v1/chat/completions"
       /\ (exists history, body (AppBasic.request fl) = Some (chat_body (js " m ") history))
       /\ ((@nil N) = [] -> endpoint (AppBasic.request fl) = js "/v1/chat/completions").
Proof.
  split.
  - split; [vm_compute; discriminate | reflexivity].
  - apply (basic_settings_are_used_as_typed [] (js " m ") 1 1);
      [vm_compute; discriminate | reflexivity].
Defined.

(** ** The connection test of [src/src/App.tsx] *)

(** X20: in [src/src/App.tsx] every answer with the tag [json] and a truthy
    [data] ends [testConnection] with the success alert, whatever the shape
    of [data]: counting the models never throws.  The number shown is the
    length of [data.data] when that is an array with elements, and 0 when
    [data.data] is missing, [null] or an empty array. *)
Theorem basic_testConnection_counts_models (data : JsVal) (a : AppBasic.State) :
  Js.truthy data = true ->
  let fl := fst (AppBasic.testConnection a) in
  let a2 := snd (AppBasic.testConnection_settled fl (Resolved (json_result data))
                   (snd (AppBasic.testConnection a))) in
  (exists n,
      AppBasic.model_count data = Normal n
      /\ AppBasic.alerts a2 =
         AppBasic.alerts a
         ++ [[Lit (js "接続成功!" ++ nl ++ js "利用可能なモデル数: "); Interp n]]
      /\ AppBasic.messages a2 = AppBasic.messages a
      /\ AppBasic.isLoading a2 = false)
  /\ (forall x items, Js.get data (Js.Named (js "data")) = Normal (JArr (x :: items)) ->
        AppBasic.model_count data
        = Normal (JNum (inject_Z (Z.of_nat (List.length (x :: items))))))
  /\ (forall inner, Js.get data (Js.Named (js "data")) = Normal inner ->
        Js.nullish inner = true \/ inner = JArr [] ->
        AppBasic.model_count data = Normal (JNum 0)).
Proof.
  intros T fl a2.
  assert (C : exists n, AppBasic.model_count data = Normal n).
  { unfold AppBasic.model_count.
    destruct (get_of_value data (Js.Named (js "data")) (truthy_is_a_value _ T)) as (inner & ->).
    cbn [andThen].
    destruct (get_opt_returns inner (Js.Named (js "length"))) as (len & ->).
    cbn [andThen]. eexists. reflexivity. }
  split; [|split].
  - destruct C as (n & C). exists n. split; [exact C|].
    subst a2 fl. unfold AppBasic.testConnection, AppBasic.testConnection_settled.
    cbn [React.bind React.ret React.update AppBasic.setIsLoading fst snd awaited andThen].
    replace (checked_data (json_result data)) with (Normal data).
    + cbn [andThen]. rewrite C. repeat split.
    + unfold checked_data. rewrite type_of_json_result, data_of_json_result.
      cbn [andThen].
      replace (Js.strict_eq_str (JStr (js "json")) (js "json")) with true by reflexivity.
      now rewrite T.
  - intros x items G. unfold AppBasic.model_count. rewrite G. cbn [andThen].
    unfold Js.get_opt. cbn [Js.nullish Js.get].
    replace (eqb (js "length") (js "length")) with true by reflexivity.
    cbn [andThen]. unfold Js.or_else. cbn [Js.truthy].
    replace (Qeq_bool (inject_Z (Z.of_nat (List.length (x :: items)))) 0) with false;
      [reflexivity|].
    symmetry. unfold Qeq_bool, inject_Z. cbn [Qnum Qden List.length].
    apply Z.eqb_neq. lia.
  - intros inner G [N | ->]; unfold AppBasic.model_count; rewrite G; cbn [andThen].
    + unfold Js.get_opt. rewrite N. reflexivity.
    + reflexivity.
Qed.

Lemma basic_testConnection_counts_models_witness :
  let data := JObj [(js "data", JArr [JObj [(js "id", JStr (js "m1"))];
                                      JObj [(js "id", JStr (js "m2"))]])] in
  let a := Samples.basic [] false DEFAULT_CONFIG [] in
  let fl := fst (AppBasic.testConnection a) in
  let a2 := snd (AppBasic.testConnection_settled fl (Resolved (json_result data))
                   (snd (AppBasic.testConnection a))) in
  Js.truthy data = true
  /\ AppBasic.model_count data = Normal (JNum 2)
  /\ AppBasic.alerts a2 =
     [[Lit (js "接続成功!" ++ nl ++ js "利用可能なモデル数: "); Interp (JNum 2)]].
Proof.
  split; [reflexivity|].
  destruct (basic_testConnection_counts_models
              (JObj [(js "data", JArr [JObj [(js "id", JStr (js "m1"))];
                                       JObj [(js "id", JStr (js "m2"))]])])
              (Samples.basic [] false DEFAULT_CONFIG []) eq_refl) as (_ & L & _).
  split.
  - rewrite (L _ _ eq_refl). reflexivity.
  - vm_compute. reflexivity.
Defined.
